(** * remoteinference: the llama.cpp client [LlamaCPPLLM]

    A shallow embedding of [src/remoteinference/models/models.py]: the two
    public calls [completion] and [chat_completion] and the private request
    routine [__send_request], together with the part of the [requests]
    library they touch ([requests.post], [Response.raise_for_status],
    [Response.content], [Response.json]) and the [logging] calls they make.

    Python objects that travel through the client are values of [pyval];
    dictionaries are finite maps with string keys.  The network and the JSON
    decoder are parameters of the model: the network is a state machine
    answering each POST, the decoder a partial function on response bodies.
    A computation returns its result (a value or an uncaught exception), the
    events it produced (log records and POSTs, in program order) and the new
    state of the network. *)

From Stdlib Require Import ZArith Ascii String Floats.SpecFloat.
From stdpp Require Import base strings gmap list pretty.

#[local] Set Warnings "-register-all".
#[local] Open Scope Z_scope.

(** ** Python values *)

(** The objects the client handles: what a JSON-serialisable payload is made
    of and what [Response.json] can return.  A [float] is kept as its IEEE
    datum; the client never computes with it. *)
Inductive pyval : Type :=
  | VNone
  | VBool (b : bool)
  | VInt (z : Z)
  | VFloat (f : spec_float)
  | VStr (s : string)
  | VList (l : list pyval)
  | VDict (d : gmap string pyval).

(** [bytes], the type of [Response.content]. *)
Definition bytes : Type := list Byte.byte.

(** Exceptions derived from [requests.RequestException]: the ones the
    [except] clause of [__send_request] catches. *)
Inductive RequestException : Type :=
  | ConnectionError
  | Timeout
  | TooManyRedirects
  | InvalidURL
  | InvalidJSONError
  | HTTPError (status : Z).

(** Exceptions that are no [RequestException] and that [requests.post]
    raises all the same: the [ValueError] of [http.client] for a header
    value that ends in a newline, the [UnicodeEncodeError] for a header
    value outside Latin-1, or one of a further class.  The client hands
    [requests.post] a string, a dict of strings and a dict that serialises,
    so the [TypeError] and [KeyError] of [exn] below are always the ones of
    the subscript in [completion]. *)
Inductive OtherException : Type :=
  | ValueError
  | UnicodeEncodeError
  | OtherClass (name : string).

(** Exceptions that leave the client: the ones raised after the [try]
    block, and the ones of [requests.post] that the [except] clause does not
    catch. *)
Inductive exn : Type :=
  | TypeError
  | KeyError (key : string)
  | JSONDecodeError
  | Uncaught (e : OtherException).

Inductive result (A : Type) : Type :=
  | Returns (a : A)
  | Raises (e : exn).
Arguments Returns {A} a.
Arguments Raises {A} e.

(** ** The [requests] library *)

(** [requests.Response]: the status code and the body.  [content] is [None]
    on a response object that was never filled by a request. *)
Record Response : Type := mkResponse {
  status_code : Z;
  content : option bytes
}.

(** The keyword arguments of [requests.post(url=..., headers=..., json=...)]
    together with the method. *)
Record Request : Type := mkRequest {
  method : string;
  url : string;
  headers : gmap string string;
  json : gmap string pyval
}.

(** What [requests.post] does: it raises a [RequestException], it returns a
    response, or it raises an exception of another class. *)
Inductive post_outcome : Type :=
  | PostRaised (e : RequestException)
  | PostReturned (r : Response)
  | PostRaisedOther (e : OtherException).

(** [HTTPStatus.NO_CONTENT]. *)
Definition NO_CONTENT : Z := 204.

(** [Response.raise_for_status]: raises [HTTPError] on a 4xx or a 5xx status
    and does nothing otherwise. *)
Definition raise_for_status (r : Response) : option RequestException :=
  if (400 <=? status_code r) && (status_code r <? 600)
  then Some (HTTPError (status_code r))
  else None.

(** Truth value of [response.content]: [None] and [b''] are false. *)
Definition content_truthy (r : Response) : bool :=
  match content r with
  | Some (_ :: _) => true
  | _ => false
  end.

(** ** Logging *)

Inductive level : Type := DEBUG | INFO | ERROR.

(** One constructor per f-string handed to the logger, holding the values the
    f-string interpolates. *)
Inductive message : Type :=
  | SendingRequestTo (server_url : string)
  | RawRequestContent (payload : gmap string pyval)
  | RawRequestHeader (hdrs : gmap string string)
  | ServerResponse (response : Response)
  | ReceivedAnError (e : RequestException)
  | PromptResult (prompt : string) (content : pyval)
  | SendingChatPrompt (payload : gmap string pyval)
  | ChatResult (response : pyval).

(** What a call does to the outside: log records and POSTs. *)
Inductive event : Type :=
  | Log (lvl : level) (msg : message)
  | Post (rq : Request).

(** ** Configuration *)

(** Modelled from the spec: [remoteinference.util.config.ServerConfig] is
    not part of the sources at hand; the spec gives it a host string, an
    integer port and the API key, and the client reads exactly these three
    attributes. *)
Record ServerConfig : Type := mkServerConfig {
  server_address : string;
  server_port : Z;
  api_key : string
}.

Definition COMPLETION_ENDPOINT : string := "completion".
Definition CHAT_ENDPOINT : string := "v1/chat/completions".

(** ** Dictionaries *)

(** [d.update(other)], which is what [**other] does at the end of a dict
    display: every item of [other] is stored into [d] in turn. *)
Definition dict_update {V : Type} (d other : gmap string V) : gmap string V :=
  map_fold (λ k v acc, <[k := v]> acc) d other.

(** The dict display [{k1: v1, ..., kn: vn, **kwargs}]: the listed items are
    stored from left to right into an empty dict, then [kwargs] is unpacked
    into it. *)
Definition dict_display {V : Type}
    (items : list (string * V)) (kwargs : gmap string V) : gmap string V :=
  dict_update (foldl (λ acc kv, <[kv.1 := kv.2]> acc) ∅ items) kwargs.

(** [obj[key]] for a string key: only a dict can be subscripted by a string,
    and the key has to be there. *)
Definition subscript (obj : pyval) (key : string) : result pyval :=
  match obj with
  | VDict d =>
      match d !! key with
      | Some v => Returns v
      | None => Raises (KeyError key)
      end
  | _ => Raises TypeError
  end.

(** ** The client *)

Section Client.

(** The network with the server behind it, and the JSON decoder behind
    [Response.json].  [None] from the decoder is a body that is not JSON. *)
Context {World : Type}.
Variable net_post : Request → World → post_outcome * World.
Variable json_loads : bytes → option pyval.

(** Computations: a result, the events in program order, the new world. *)
Definition M (A : Type) : Type := World → result A * list event * World.

Definition ret {A : Type} (a : A) : M A := λ w, (Returns a, [], w).

Definition raise {A : Type} (e : exn) : M A := λ w, (Raises e, [], w).

Definition bind {A B : Type} (m : M A) (k : A → M B) : M B := λ w,
  match m w with
  | (Returns a, tr, w') =>
      match k a w' with
      | (r, tr', w'') => (r, tr ++ tr', w'')
      end
  | (Raises e, tr, w') => (Raises e, tr, w')
  end.

Definition lift {A : Type} (r : result A) : M A := λ w, (r, [], w).

Definition logger (lvl : level) (msg : message) : M unit :=
  λ w, (Returns tt, [Log lvl msg], w).

(** [requests.post(url=..., headers=..., json=...)].  Its outcome is handed
    back as a value because the caller wraps the call in [try]. *)
Definition requests_post (server_url : string) (hdrs : gmap string string)
    (payload : gmap string pyval) : M post_outcome := λ w,
  let rq := mkRequest "POST" server_url hdrs payload in
  match net_post rq w with
  | (o, w') => (Returns o, [Post rq], w')
  end.

(** [response.json()]. *)
Definition Response_json (r : Response) : M pyval :=
  match json_loads (default [] (content r)) with
  | Some v => ret v
  | None => raise JSONDecodeError
  end.

#[local] Instance M_ret : MRet M := @ret.
#[local] Instance M_bind : MBind M := λ A B k m, bind m k.

(** Lines 100-104: the request headers. *)
Definition request_headers (cfg : ServerConfig) : gmap string string :=
  dict_display [("accept", "application/json");
                ("content-type", "application/json");
                ("Authorization", "Bearer " +:+ api_key cfg)] ∅.

(** Lines 106-107: the f-string of the URL; an [int] port is printed in
    decimal. *)
Definition server_url (cfg : ServerConfig) (api_endpoint : string) : string :=
  "http://" +:+ server_address cfg +:+ ":" +:+ pretty (server_port cfg)
    +:+ "/" +:+ api_endpoint.

(** Lines 86-133.  The local variable [response] starts as an empty
    [Response] with status 204; the [try] block rebinds it as soon as
    [requests.post] returns, so a failing [raise_for_status] leaves the
    server's response in the variable, while a failing [requests.post]
    leaves the initial one.  The [except] clause names
    [requests.RequestException]: an exception of another class passes it
    and leaves the function at once. *)
Definition __send_request (cfg : ServerConfig)
    (payload : gmap string pyval) (api_endpoint : string) : M pyval :=
  let hdrs := request_headers cfg in
  let server_url := server_url cfg api_endpoint in
  logger INFO (SendingRequestTo server_url) ;;
  logger DEBUG (RawRequestContent payload) ;;
  logger DEBUG (RawRequestHeader hdrs) ;;
  let response := mkResponse NO_CONTENT None in
  response ←
    (posted ← requests_post server_url hdrs payload ;
     match posted with
     | PostRaised e =>
         logger ERROR (ReceivedAnError e) ;; ret response
     | PostReturned response =>
         match raise_for_status response with
         | Some e => logger ERROR (ReceivedAnError e) ;; ret response
         | None => logger INFO (ServerResponse response) ;; ret response
         end
     | PostRaisedOther e => raise (Uncaught e)
     end) ;
  if content_truthy response
  then Response_json response
  else ret VNone.

(** Lines 44-49.  Python binds a keyword argument named like a parameter to
    that parameter, so [kwargs] never holds [prompt], [temperature] or
    [max_tokens]; the definition does not depend on it. *)
Definition completion_payload (prompt : string) (temperature : spec_float)
    (max_tokens : Z) (kwargs : gmap string pyval) : gmap string pyval :=
  dict_display [("prompt", VStr prompt);
                ("temperature", VFloat temperature);
                ("n_predict", VInt max_tokens)] kwargs.

(** Lines 25-54.  [response['content']] is evaluated twice, first while the
    f-string of the debug record is built, then for the [return]. *)
Definition completion (cfg : ServerConfig) (prompt : string)
    (temperature : spec_float) (max_tokens : Z)
    (kwargs : gmap string pyval) : M pyval :=
  let payload := completion_payload prompt temperature max_tokens kwargs in
  response ← __send_request cfg payload COMPLETION_ENDPOINT ;
  shown ← lift (subscript response "content") ;
  logger DEBUG (PromptResult prompt shown) ;;
  lift (subscript response "content").

(** [messages: list[dict[str, str]]] as a Python object. *)
Definition messages_value (messages : list (gmap string string)) : pyval :=
  VList ((λ m, VDict (VStr <$> m)) <$> messages).

(** Lines 75-78. *)
Definition chat_payload (messages : list (gmap string string))
    (temperature : spec_float) (max_tokens : Z)
    (kwargs : gmap string pyval) : gmap string pyval :=
  dict_display [("messages", messages_value messages);
                ("temperature", VFloat temperature);
                ("max_tokens", VInt max_tokens)] kwargs.

(** Lines 56-84. *)
Definition chat_completion (cfg : ServerConfig)
    (messages : list (gmap string string)) (temperature : spec_float)
    (max_tokens : Z) (kwargs : gmap string pyval) : M pyval :=
  let payload := chat_payload messages temperature max_tokens kwargs in
  logger DEBUG (SendingChatPrompt payload) ;;
  response ← __send_request cfg payload CHAT_ENDPOINT ;
  logger DEBUG (ChatResult response) ;;
  ret response.

End Client.

(** The request [__send_request] hands to [requests.post] for a payload and
    an endpoint (lines 117-121 with the values of lines 100-107). *)
Definition request_to (cfg : ServerConfig) (payload : gmap string pyval)
    (api_endpoint : string) : Request :=
  mkRequest "POST" (server_url cfg api_endpoint) (request_headers cfg) payload.

(** Projections of a finished computation. *)
Definition outcome {A World : Type} (x : result A * list event * World) : result A := x.1.1.
Definition trace {A World : Type} (x : result A * list event * World) : list event := x.1.2.
Definition world_after {A World : Type} (x : result A * list event * World) : World := x.2.

(** The POSTs among the events, in order. *)
Fixpoint posts_of (tr : list event) : list Request :=
  match tr with
  | [] => []
  | Post rq :: tr' => rq :: posts_of tr'
  | Log _ _ :: tr' => posts_of tr'
  end.

(** The error-level records among the events, in order. *)
Fixpoint errors_logged (tr : list event) : list message :=
  match tr with
  | [] => []
  | Log ERROR msg :: tr' => msg :: errors_logged tr'
  | _ :: tr' => errors_logged tr'
  end.

(** ** A decoder and servers to run the client on *)

(** A decoder for a fragment of JSON, standing for [json.loads] where the
    model is run on concrete bodies: objects, arrays, strings without escape
    sequences, integers, [true], [false] and [null], with blanks between
    tokens.  In an object a repeated key keeps its last value. *)
Module JsonFragment.

#[local] Open Scope char_scope.

Definition quote : ascii := "034".

Definition is_blank (c : ascii) : bool :=
  (c =? " ") || (c =? "009") || (c =? "010") || (c =? "013").

Definition digit_of (c : ascii) : option Z :=
  let n := Z.of_nat (nat_of_ascii c) in
  if ((48 <=? n) && (n <=? 57))%Z then Some (n - 48)%Z else None.

Fixpoint skip_blanks (s : string) : string :=
  match s with
  | String c s' => if is_blank c then skip_blanks s' else s
  | EmptyString => s
  end.

(** The characters up to the closing quote, and what follows it. *)
Fixpoint scan_string (s : string) : option (string * string) :=
  match s with
  | EmptyString => None
  | String c s' =>
      if c =? quote then Some (EmptyString, s')
      else if c =? "\" then None
      else '(body, rest) ← scan_string s'; Some (String c body, rest)
  end.

Fixpoint scan_digits (acc : Z) (s : string) : Z * string :=
  match s with
  | String c s' =>
      match digit_of c with
      | Some d => scan_digits (10 * acc + d) s'
      | None => (acc, s)
      end
  | EmptyString => (acc, s)
  end.

Definition scan_number (s : string) : option (Z * string) :=
  match s with
  | String c s' =>
      match digit_of c with
      | Some d => Some (scan_digits d s')
      | None => None
      end
  | EmptyString => None
  end.

Fixpoint parse_value (fuel : nat) (s : string) {struct fuel}
    : option (pyval * string) :=
  match fuel with
  | O => None
  | S fuel =>
      match skip_blanks s with
      | String "n" (String "u" (String "l" (String "l" rest))) =>
          Some (VNone, rest)
      | String "t" (String "r" (String "u" (String "e" rest))) =>
          Some (VBool true, rest)
      | String "f" (String "a" (String "l" (String "s" (String "e" rest)))) =>
          Some (VBool false, rest)
      | String "[" rest =>
          match skip_blanks rest with
          | String "]" rest' => Some (VList [], rest')
          | _ => '(l, rest') ← parse_elements fuel rest; Some (VList l, rest')
          end
      | String "{" rest =>
          match skip_blanks rest with
          | String "}" rest' => Some (VDict ∅, rest')
          | _ => '(d, rest') ← parse_members fuel ∅ rest; Some (VDict d, rest')
          end
      | String "-" rest =>
          '(z, rest') ← scan_number rest; Some (VInt (- z), rest')
      | String c rest =>
          if c =? quote
          then '(str, rest') ← scan_string rest; Some (VStr str, rest')
          else '(z, rest') ← scan_number (String c rest); Some (VInt z, rest')
      | EmptyString => None
      end
  end
with parse_elements (fuel : nat) (s : string) {struct fuel}
    : option (list pyval * string) :=
  match fuel with
  | O => None
  | S fuel =>
      '(v, rest) ← parse_value fuel s;
      match skip_blanks rest with
      | String "," rest' =>
          '(l, rest'') ← parse_elements fuel rest'; Some (v :: l, rest'')
      | String "]" rest' => Some ([v], rest')
      | _ => None
      end
  end
with parse_members (fuel : nat) (acc : gmap string pyval) (s : string)
    {struct fuel} : option (gmap string pyval * string) :=
  match fuel with
  | O => None
  | S fuel =>
      match skip_blanks s with
      | String c rest =>
          if c =? quote then
            '(key, rest) ← scan_string rest;
            match skip_blanks rest with
            | String ":" rest =>
                '(v, rest) ← parse_value fuel rest;
                match skip_blanks rest with
                | String "," rest' => parse_members fuel (<[key := v]> acc) rest'
                | String "}" rest' => Some (<[key := v]> acc, rest')
                | _ => None
                end
            | _ => None
            end
          else None
      | EmptyString => None
      end
  end.

Definition json_loads (body : bytes) : option pyval :=
  let s := string_of_list_byte body in
  '(v, rest) ← parse_value (2 * String.length s + 2) s;
  match skip_blanks rest with
  | EmptyString => Some v
  | _ => None
  end.

(** [s] between double quotes. *)
Definition quoted (s : string) : string :=
  String quote s +:+ String quote EmptyString.

(** The body [{"key":"value"}]. *)
Definition object1 (key value : string) : bytes :=
  list_byte_of_string ("{" +:+ quoted key +:+ ":" +:+ quoted value +:+ "}").

End JsonFragment.

(** Servers that answer every request the same way; the world counts the
    requests served. *)
Module Stub.

Definition always (o : post_outcome) : Request → nat → post_outcome * nat :=
  λ _ served, (o, S served).

(** A server that answers 200 on its first request and is unreachable
    afterwards: its answer depends on more than the request. *)
Definition flaky (body : bytes) : Request → nat → post_outcome * nat :=
  λ _ served,
    (if served is O
     then PostReturned (mkResponse 200 (Some body))
     else PostRaised ConnectionError,
     S served).

Definition cfg : ServerConfig := mkServerConfig "localhost" 8080 "secret".

(** A server whose completion endpoint answers and whose other endpoints
    cannot be reached. *)
Definition completion_only (answer : Response)
    : Request → nat → post_outcome * nat :=
  λ rq served,
    (if String.eqb (url rq) (server_url cfg COMPLETION_ENDPOINT)
     then PostReturned answer
     else PostRaised ConnectionError,
     S served).

Definition half : spec_float := S754_finite false 1 (-1).

Definition hello : bytes := JsonFragment.object1 "content" "hello".

Definition boom : bytes := JsonFragment.object1 "error" "boom".

(** A body that is not JSON. *)
Definition page : bytes := list_byte_of_string "<html>".

Definition greeting : list (gmap string string) :=
  [ {[ "role" := "user"; "content" := "hi" ]} ].

End Stub.

(** * Properties *)

(** ** Dictionaries *)

Lemma dict_update_union {V : Type} (d other : gmap string V) :
  dict_update d other = other ∪ d.
Proof.
  unfold dict_update.
  apply (map_fold_weak_ind (λ r m, r = m ∪ d)).
  - by rewrite (left_id_L ∅ (∪)).
  - intros k v m r _ ->. by rewrite insert_union_l.
Qed.

Lemma dict_display_union {V : Type} (items : list (string * V))
    (kwargs : gmap string V) :
  dict_display items kwargs = kwargs ∪ foldl (λ acc kv, <[kv.1 := kv.2]> acc) ∅ items.
Proof. apply dict_update_union. Qed.

(** A display without unpacked part is the dict of its items. *)
Lemma request_headers_eq (cfg : ServerConfig) :
  request_headers cfg =
    {[ "accept" := "application/json";
       "content-type" := "application/json";
       "Authorization" := "Bearer " +:+ api_key cfg ]}.
Proof.
  unfold request_headers. rewrite dict_display_union, (left_id_L ∅ (∪)).
  apply map_eq; intros k. simpl.
  destruct (decide (k = "Authorization")) as [->|?]; [by simplify_map_eq|].
  destruct (decide (k = "content-type")) as [->|?]; [by simplify_map_eq|].
  destruct (decide (k = "accept")) as [->|?]; by simplify_map_eq.
Qed.

Lemma dict_display_three {V : Type} (k1 k2 k3 : string) (v1 v2 v3 : V)
    (kwargs : gmap string V) :
  k1 ≠ k2 → k1 ≠ k3 → k2 ≠ k3 →
  dict_display [(k1, v1); (k2, v2); (k3, v3)] kwargs =
    kwargs ∪ {[ k1 := v1; k2 := v2; k3 := v3 ]}.
Proof.
  intros H12 H13 H23. rewrite dict_display_union. f_equal. simpl.
  rewrite (insert_insert_ne _ k3 k2), (insert_insert_ne _ k3 k1) by done.
  by rewrite (insert_insert_ne _ k2 k1), insert_empty by done.
Qed.

Lemma completion_payload_union (prompt : string) (temperature : spec_float)
    (max_tokens : Z) (kwargs : gmap string pyval) :
  completion_payload prompt temperature max_tokens kwargs =
    kwargs ∪ {[ "prompt" := VStr prompt;
                "temperature" := VFloat temperature;
                "n_predict" := VInt max_tokens ]}.
Proof. by apply dict_display_three. Qed.

Lemma chat_payload_union (messages : list (gmap string string))
    (temperature : spec_float) (max_tokens : Z) (kwargs : gmap string pyval) :
  chat_payload messages temperature max_tokens kwargs =
    kwargs ∪ {[ "messages" := messages_value messages;
                "temperature" := VFloat temperature;
                "max_tokens" := VInt max_tokens ]}.
Proof. by apply dict_display_three. Qed.

(** Merging with the extras last: a key of the extras reads its extra value,
    any other key reads what the fixed part holds. *)
Lemma merged_lookup {V : Type} (kwargs fixed : gmap string V) (k : string) :
  (kwargs ∪ fixed) !! k =
    match kwargs !! k with
    | Some v => Some v
    | None => fixed !! k
    end.
Proof.
  destruct (kwargs !! k) as [v|] eqn:E.
  - by apply lookup_union_Some_l.
  - by rewrite lookup_union_r.
Qed.

(** On the stub configuration: the URL, the bearer header, and an extra
    [n_predict] taking the place of [max_tokens] while a new key is added. *)
Example server_url_of_stub :
  server_url Stub.cfg COMPLETION_ENDPOINT = "http://localhost:8080/completion"
  ∧ server_url Stub.cfg CHAT_ENDPOINT
    = "http://localhost:8080/v1/chat/completions".
Proof. split; reflexivity. Qed.

Example authorization_of_stub :
  request_headers Stub.cfg !! "Authorization" = Some "Bearer secret"
  ∧ request_headers Stub.cfg !! "accept" = Some "application/json"
  ∧ request_headers Stub.cfg !! "content-type" = Some "application/json"
  ∧ request_headers Stub.cfg !! "Accept" = None.
Proof. repeat split; reflexivity. Qed.

Example completion_payload_with_extras :
  let payload :=
    completion_payload "hi" Stub.half 16
      {[ "n_predict" := VInt 5; "stop" := VList [VStr "."] ]} in
  payload !! "prompt" = Some (VStr "hi")
  ∧ payload !! "temperature" = Some (VFloat Stub.half)
  ∧ payload !! "n_predict" = Some (VInt 5)
  ∧ payload !! "stop" = Some (VList [VStr "."])
  ∧ payload !! "max_tokens" = None.
Proof. repeat split; reflexivity. Qed.

(** ** Running the client *)

Section Runs.

Context {World : Type}.
Variable net_post : Request → World → post_outcome * World.
Variable json_loads : bytes → option pyval.

(** One run of [__send_request], spelled out: three records, the POST, the
    record of how it went, and the value read off the response in scope. *)
Lemma send_request_run (cfg : ServerConfig) (payload : gmap string pyval)
    (api_endpoint : string) (w : World) :
  __send_request net_post json_loads cfg payload api_endpoint w =
    let rq := request_to cfg payload api_endpoint in
    let started :=
      [Log INFO (SendingRequestTo (server_url cfg api_endpoint));
       Log DEBUG (RawRequestContent payload);
       Log DEBUG (RawRequestHeader (request_headers cfg));
       Post rq] in
    let read_off (response : Response) :=
      if content_truthy response
      then match json_loads (default [] (content response)) with
           | Some v => Returns v
           | None => Raises JSONDecodeError
           end
      else Returns VNone in
    match (net_post rq w).1 with
    | PostRaised e =>
        (read_off (mkResponse NO_CONTENT None),
         started ++ [Log ERROR (ReceivedAnError e)],
         (net_post rq w).2)
    | PostReturned r =>
        (read_off r,
         started ++ [match raise_for_status r with
                     | Some e => Log ERROR (ReceivedAnError e)
                     | None => Log INFO (ServerResponse r)
                     end],
         (net_post rq w).2)
    | PostRaisedOther e => (Raises (Uncaught e), started, (net_post rq w).2)
    end.
Proof.
  unfold __send_request, request_to, mbind, M_bind, bind, logger,
    requests_post, Response_json, ret, raise. simpl.
  destruct (net_post _ w) as [[e|r|x] w']; simpl.
  - reflexivity.
  - destruct (raise_for_status r); simpl;
      destruct (content_truthy r); simpl; try reflexivity;
      destruct (json_loads _); reflexivity.
  - reflexivity.
Qed.

(** [chat_completion] wraps one run of [__send_request] in two debug
    records; the second one is skipped when the run raises. *)
Lemma chat_completion_run (cfg : ServerConfig)
    (messages : list (gmap string string)) (temperature : spec_float)
    (max_tokens : Z) (kwargs : gmap string pyval) (w : World) :
  chat_completion net_post json_loads cfg messages temperature max_tokens kwargs w =
    let payload := chat_payload messages temperature max_tokens kwargs in
    let run := __send_request net_post json_loads cfg payload CHAT_ENDPOINT w in
    match outcome run with
    | Returns v =>
        (Returns v,
         Log DEBUG (SendingChatPrompt payload) :: trace run
           ++ [Log DEBUG (ChatResult v)],
         world_after run)
    | Raises e =>
        (Raises e, Log DEBUG (SendingChatPrompt payload) :: trace run,
         world_after run)
    end.
Proof.
  unfold chat_completion, mbind, M_bind, bind, logger, ret, mret,
    outcome, trace, world_after.
  destruct (__send_request _ _ _ _ _ w) as [[[v|e] tr] w']; simpl;
    reflexivity.
Qed.

(** [completion] subscripts whatever [__send_request] returned. *)
Lemma completion_run (cfg : ServerConfig) (prompt : string)
    (temperature : spec_float) (max_tokens : Z)
    (kwargs : gmap string pyval) (w : World) :
  completion net_post json_loads cfg prompt temperature max_tokens kwargs w =
    let payload := completion_payload prompt temperature max_tokens kwargs in
    let run := __send_request net_post json_loads cfg payload COMPLETION_ENDPOINT w in
    match outcome run with
    | Returns response =>
        match subscript response "content" with
        | Returns v =>
            (Returns v, trace run ++ [Log DEBUG (PromptResult prompt v)],
             world_after run)
        | Raises e => (Raises e, trace run, world_after run)
        end
    | Raises e => (Raises e, trace run, world_after run)
    end.
Proof.
  unfold completion, mbind, M_bind, bind, logger, lift,
    outcome, trace, world_after.
  destruct (__send_request _ _ _ _ _ w) as [[[v|e] tr] w']; simpl;
    [|reflexivity].
  destruct (subscript v "content") as [c|e]; simpl;
    by rewrite ?app_nil_r.
Qed.

End Runs.

Lemma posts_of_app (tr1 tr2 : list event) :
  posts_of (tr1 ++ tr2) = posts_of tr1 ++ posts_of tr2.
Proof.
  induction tr1 as [|[lvl msg|rq] tr1 IH]; simpl; [done|done|].
  by rewrite IH.
Qed.

Lemma errors_logged_app (tr1 tr2 : list event) :
  errors_logged (tr1 ++ tr2) = errors_logged tr1 ++ errors_logged tr2.
Proof.
  induction tr1 as [|[[| |] msg|rq] tr1 IH]; simpl; try done.
  by rewrite IH.
Qed.

(** A whole run on the stub: the events in program order. *)
Example completion_run_on_stub :
  let answer := mkResponse 200 (Some Stub.hello) in
  let payload := completion_payload "hi" Stub.half 16 ∅ in
  completion (Stub.always (PostReturned answer)) JsonFragment.json_loads
    Stub.cfg "hi" Stub.half 16 ∅ 0%nat
  = (Returns (VStr "hello"),
     [Log INFO (SendingRequestTo "http://localhost:8080/completion");
      Log DEBUG (RawRequestContent payload);
      Log DEBUG (RawRequestHeader (request_headers Stub.cfg));
      Post (request_to Stub.cfg payload COMPLETION_ENDPOINT);
      Log INFO (ServerResponse answer);
      Log DEBUG (PromptResult "hi" (VStr "hello"))],
     1%nat).
Proof. vm_compute. reflexivity. Qed.

(** The events of a run of [__send_request]: the POSTs are the one request,
    whatever the network answers. *)
Lemma send_request_posts {World : Type}
    (net_post : Request → World → post_outcome * World)
    (json_loads : bytes → option pyval) (cfg : ServerConfig)
    (payload : gmap string pyval) (api_endpoint : string) (w : World) :
  posts_of (trace (__send_request net_post json_loads cfg payload api_endpoint w))
    = [request_to cfg payload api_endpoint].
Proof.
  rewrite send_request_run. cbv zeta.
  destruct (net_post _ w).1 as [e|r|x]; unfold trace; simpl; try done.
  by destruct (raise_for_status r).
Qed.

Lemma completion_posts {World : Type}
    (net_post : Request → World → post_outcome * World)
    (json_loads : bytes → option pyval) (cfg : ServerConfig) (prompt : string)
    (temperature : spec_float) (max_tokens : Z) (kwargs : gmap string pyval)
    (w : World) :
  posts_of (trace (completion net_post json_loads cfg prompt temperature
                     max_tokens kwargs w))
    = [request_to cfg (completion_payload prompt temperature max_tokens kwargs)
         COMPLETION_ENDPOINT].
Proof.
  rewrite completion_run. cbv zeta.
  pose proof (send_request_posts net_post json_loads cfg
    (completion_payload prompt temperature max_tokens kwargs)
    COMPLETION_ENDPOINT w) as Hposts.
  destruct (outcome _) as [response|e]; [|exact Hposts].
  destruct (subscript response "content"); [|exact Hposts].
  unfold trace at 1. simpl. rewrite posts_of_app, Hposts. done.
Qed.

Lemma chat_completion_posts {World : Type}
    (net_post : Request → World → post_outcome * World)
    (json_loads : bytes → option pyval) (cfg : ServerConfig)
    (messages : list (gmap string string)) (temperature : spec_float)
    (max_tokens : Z) (kwargs : gmap string pyval) (w : World) :
  posts_of (trace (chat_completion net_post json_loads cfg messages temperature
                     max_tokens kwargs w))
    = [request_to cfg (chat_payload messages temperature max_tokens kwargs)
         CHAT_ENDPOINT].
Proof.
  rewrite chat_completion_run. cbv zeta.
  pose proof (send_request_posts net_post json_loads cfg
    (chat_payload messages temperature max_tokens kwargs)
    CHAT_ENDPOINT w) as Hposts.
  destruct (outcome _) as [response|e]; unfold trace at 1; simpl;
    [|exact Hposts].
  rewrite posts_of_app, Hposts. done.
Qed.

(** ** Requests *)

(** C2: for every prompt, temperature, token limit and extras, [completion]
    sends one POST, to the path [completion] of the configured server, whose
    JSON body is the dict of [prompt], [temperature] and [n_predict] merged
    with the extras, an extra key taking the place of a fixed key of the same
    name. *)
Theorem completion_posts_merged_payload {World : Type}
    (net_post : Request → World → post_outcome * World)
    (json_loads : bytes → option pyval) (cfg : ServerConfig) (prompt : string)
    (temperature : spec_float) (max_tokens : Z) (kwargs : gmap string pyval)
    (w : World) :
  let fixed : gmap string pyval :=
    {[ "prompt" := VStr prompt;
       "temperature" := VFloat temperature;
       "n_predict" := VInt max_tokens ]} in
  ∃ rq : Request,
    posts_of (trace (completion net_post json_loads cfg prompt temperature
                       max_tokens kwargs w)) = [rq]
    ∧ method rq = "POST"
    ∧ url rq = "http://" +:+ server_address cfg +:+ ":"
                 +:+ pretty (server_port cfg) +:+ "/completion"
    ∧ json rq = kwargs ∪ fixed
    ∧ ∀ k : string,
        json rq !! k = match kwargs !! k with
                       | Some v => Some v
                       | None => fixed !! k
                       end.
Proof.
  intros fixed. eexists. split; [apply completion_posts|].
  simpl. split; [done|]. split; [done|].
  rewrite completion_payload_union. split; [done|].
  intros k. apply merged_lookup.
Qed.

(** C3: for every list of messages, temperature, token limit and extras,
    [chat_completion] sends one POST, to the path [v1/chat/completions],
    whose JSON body is the dict of [messages], [temperature] and
    [max_tokens] merged with the extras, the extras winning on a shared
    key. *)
Theorem chat_completion_posts_merged_payload {World : Type}
    (net_post : Request → World → post_outcome * World)
    (json_loads : bytes → option pyval) (cfg : ServerConfig)
    (messages : list (gmap string string)) (temperature : spec_float)
    (max_tokens : Z) (kwargs : gmap string pyval) (w : World) :
  let fixed : gmap string pyval :=
    {[ "messages" := VList ((λ m, VDict (VStr <$> m)) <$> messages);
       "temperature" := VFloat temperature;
       "max_tokens" := VInt max_tokens ]} in
  ∃ rq : Request,
    posts_of (trace (chat_completion net_post json_loads cfg messages
                       temperature max_tokens kwargs w)) = [rq]
    ∧ method rq = "POST"
    ∧ url rq = "http://" +:+ server_address cfg +:+ ":"
                 +:+ pretty (server_port cfg) +:+ "/v1/chat/completions"
    ∧ json rq = kwargs ∪ fixed
    ∧ ∀ k : string,
        json rq !! k = match kwargs !! k with
                       | Some v => Some v
                       | None => fixed !! k
                       end.
Proof.
  intros fixed. eexists. split; [apply chat_completion_posts|].
  simpl. split; [done|]. split; [done|].
  rewrite chat_payload_union. split; [done|].
  intros k. apply merged_lookup.
Qed.

(** C4: every request the client issues, through [completion] or through
    [chat_completion], carries exactly the three headers [accept],
    [content-type] and [Authorization], the last one being [Bearer] followed
    by the configured key as it is, and goes to
    [http://<server_address>:<server_port>/<endpoint>]. *)
Theorem requests_carry_headers_and_url {World : Type}
    (net_post : Request → World → post_outcome * World)
    (json_loads : bytes → option pyval) (cfg : ServerConfig) (prompt : string)
    (messages : list (gmap string string)) (temperature : spec_float)
    (max_tokens : Z) (kwargs : gmap string pyval) (w : World) :
  let expected_headers : gmap string string :=
    {[ "accept" := "application/json";
       "content-type" := "application/json";
       "Authorization" := "Bearer " +:+ api_key cfg ]} in
  let expected_url (path : string) : string :=
    "http://" +:+ server_address cfg +:+ ":" +:+ pretty (server_port cfg)
      +:+ "/" +:+ path in
  (∀ rq : Request,
     rq ∈ posts_of (trace (completion net_post json_loads cfg prompt
                             temperature max_tokens kwargs w)) →
     headers rq = expected_headers ∧ url rq = expected_url "completion")
  ∧ (∀ rq : Request,
       rq ∈ posts_of (trace (chat_completion net_post json_loads cfg messages
                               temperature max_tokens kwargs w)) →
       headers rq = expected_headers
       ∧ url rq = expected_url "v1/chat/completions").
Proof.
  intros expected_headers expected_url. split; intros rq Hin.
  - rewrite completion_posts in Hin. apply list_elem_of_singleton in Hin as ->.
    split; [apply request_headers_eq|done].
  - rewrite chat_completion_posts in Hin.
    apply list_elem_of_singleton in Hin as ->.
    split; [apply request_headers_eq|done].
Qed.

(** ** Results and error records, call by call *)

Section Outcomes.

Context {World : Type}.
Variable net_post : Request → World → post_outcome * World.
Variable json_loads : bytes → option pyval.

(** The value read off a response: nothing for an empty body, the decoded
    body otherwise. *)
Lemma send_request_outcome (cfg : ServerConfig) (payload : gmap string pyval)
    (api_endpoint : string) (w : World) :
  outcome (__send_request net_post json_loads cfg payload api_endpoint w) =
    match (net_post (request_to cfg payload api_endpoint) w).1 with
    | PostRaised _ => Returns VNone
    | PostReturned r =>
        if content_truthy r
        then match json_loads (default [] (content r)) with
             | Some v => Returns v
             | None => Raises JSONDecodeError
             end
        else Returns VNone
    | PostRaisedOther e => Raises (Uncaught e)
    end.
Proof.
  rewrite send_request_run. cbv zeta.
  by destruct (net_post _ w).1.
Qed.

Lemma send_request_errors_logged (cfg : ServerConfig)
    (payload : gmap string pyval) (api_endpoint : string) (w : World) :
  errors_logged
      (trace (__send_request net_post json_loads cfg payload api_endpoint w)) =
    match (net_post (request_to cfg payload api_endpoint) w).1 with
    | PostRaised e => [ReceivedAnError e]
    | PostReturned r =>
        match raise_for_status r with
        | Some e => [ReceivedAnError e]
        | None => []
        end
    | PostRaisedOther _ => []
    end.
Proof.
  rewrite send_request_run. cbv zeta.
  destruct (net_post _ w).1 as [e|r|x]; unfold trace; simpl; try done.
  by destruct (raise_for_status r).
Qed.

Lemma chat_completion_outcome (cfg : ServerConfig)
    (messages : list (gmap string string)) (temperature : spec_float)
    (max_tokens : Z) (kwargs : gmap string pyval) (w : World) :
  outcome (chat_completion net_post json_loads cfg messages temperature
             max_tokens kwargs w) =
    outcome (__send_request net_post json_loads cfg
               (chat_payload messages temperature max_tokens kwargs)
               CHAT_ENDPOINT w).
Proof.
  rewrite chat_completion_run. cbv zeta.
  by destruct (outcome (__send_request _ _ _ _ _ _)).
Qed.

Lemma completion_outcome (cfg : ServerConfig) (prompt : string)
    (temperature : spec_float) (max_tokens : Z)
    (kwargs : gmap string pyval) (w : World) :
  outcome (completion net_post json_loads cfg prompt temperature max_tokens
             kwargs w) =
    match outcome (__send_request net_post json_loads cfg
                     (completion_payload prompt temperature max_tokens kwargs)
                     COMPLETION_ENDPOINT w) with
    | Returns response => subscript response "content"
    | Raises e => Raises e
    end.
Proof.
  rewrite completion_run. cbv zeta.
  destruct (outcome (__send_request _ _ _ _ _ _)) as [response|e]; [|done].
  by destruct (subscript response "content").
Qed.

Lemma chat_completion_errors_logged (cfg : ServerConfig)
    (messages : list (gmap string string)) (temperature : spec_float)
    (max_tokens : Z) (kwargs : gmap string pyval) (w : World) :
  errors_logged (trace (chat_completion net_post json_loads cfg messages
                          temperature max_tokens kwargs w)) =
    errors_logged (trace (__send_request net_post json_loads cfg
                            (chat_payload messages temperature max_tokens kwargs)
                            CHAT_ENDPOINT w)).
Proof.
  rewrite chat_completion_run. cbv zeta.
  destruct (outcome (__send_request _ _ _ _ _ _)); unfold trace at 1; simpl;
    [|done].
  by rewrite errors_logged_app, app_nil_r.
Qed.

Lemma completion_errors_logged (cfg : ServerConfig) (prompt : string)
    (temperature : spec_float) (max_tokens : Z)
    (kwargs : gmap string pyval) (w : World) :
  errors_logged (trace (completion net_post json_loads cfg prompt temperature
                          max_tokens kwargs w)) =
    errors_logged (trace (__send_request net_post json_loads cfg
                            (completion_payload prompt temperature max_tokens kwargs)
                            COMPLETION_ENDPOINT w)).
Proof.
  rewrite completion_run. cbv zeta.
  destruct (outcome (__send_request _ _ _ _ _ _)) as [response|e]; [|done].
  destruct (subscript response "content"); unfold trace at 1; simpl; [|done].
  by rewrite errors_logged_app, app_nil_r.
Qed.

End Outcomes.

(** Every question about a public call is first turned into one about what
    the network answered to its request. *)
Ltac to_network :=
  rewrite ?completion_errors_logged, ?chat_completion_errors_logged,
    ?send_request_errors_logged, ?completion_outcome, ?chat_completion_outcome,
    ?send_request_outcome.

Lemma content_truthy_nonempty (r : Response) (body : bytes) :
  content r = Some body → body ≠ [] → content_truthy r = true.
Proof. unfold content_truthy. intros -> ?. by destruct body. Qed.

Lemma content_truthy_empty (r : Response) :
  content r = Some [] → content_truthy r = false.
Proof. unfold content_truthy. by intros ->. Qed.

Lemma raise_for_status_error (r : Response) :
  400 ≤ status_code r < 600 →
  raise_for_status r = Some (HTTPError (status_code r)).
Proof.
  intros [H1 H2]. unfold raise_for_status.
  apply Z.leb_le in H1. apply Z.ltb_lt in H2. by rewrite H1, H2.
Qed.

(** ** Successful exchanges *)

(** C6: when the server answers [completion] with a successful status and a
    non-empty body that decodes to a JSON object holding the key [content],
    [completion] returns exactly the value stored under that key. *)
Theorem completion_returns_content {World : Type}
    (net_post : Request → World → post_outcome * World)
    (json_loads : bytes → option pyval) (cfg : ServerConfig) (prompt : string)
    (temperature : spec_float) (max_tokens : Z) (kwargs : gmap string pyval)
    (w w' : World) (r : Response) (body : bytes) (d : gmap string pyval)
    (v : pyval) :
  net_post (request_to cfg (completion_payload prompt temperature max_tokens kwargs)
              COMPLETION_ENDPOINT) w = (PostReturned r, w') →
  200 ≤ status_code r < 300 →
  content r = Some body →
  body ≠ [] →
  json_loads body = Some (VDict d) →
  d !! "content" = Some v →
  outcome (completion net_post json_loads cfg prompt temperature max_tokens
             kwargs w) = Returns v.
Proof.
  intros Hnet _ Hcontent Hbody Hjson Hkey. to_network. rewrite Hnet. simpl.
  rewrite (content_truthy_nonempty r body), Hcontent by done.
  simpl. rewrite Hjson. simpl. by rewrite Hkey.
Qed.

(** The body [{"content":"hello"}] behind a 200 yields ["hello"]. *)
Lemma completion_returns_content_hello :
  outcome (completion
             (Stub.always (PostReturned (mkResponse 200 (Some Stub.hello))))
             JsonFragment.json_loads Stub.cfg "hi" Stub.half 16 ∅ 0%nat)
    = Returns (VStr "hello").
Proof.
  apply (completion_returns_content _ _ _ _ _ _ _ 0%nat 1%nat
           (mkResponse 200 (Some Stub.hello)) Stub.hello
           {[ "content" := VStr "hello" ]}).
  - reflexivity.
  - simpl. lia.
  - reflexivity.
  - discriminate.
  - vm_compute. reflexivity.
  - reflexivity.
Defined.

(** C7: when the server answers [chat_completion] successfully with a
    non-empty body, the decoded JSON value comes back as it is, with no field
    taken out of it; when the body is empty, the call returns [None] and
    raises nothing. *)
Theorem chat_completion_returns_decoded_or_none {World : Type}
    (net_post : Request → World → post_outcome * World)
    (json_loads : bytes → option pyval) (cfg : ServerConfig)
    (messages : list (gmap string string)) (temperature : spec_float)
    (max_tokens : Z) (kwargs : gmap string pyval)
    (w w' : World) (r : Response) (body : bytes) :
  net_post (request_to cfg (chat_payload messages temperature max_tokens kwargs)
              CHAT_ENDPOINT) w = (PostReturned r, w') →
  content r = Some body →
  (200 ≤ status_code r < 300 → body ≠ [] →
   ∀ v : pyval, json_loads body = Some v →
     outcome (chat_completion net_post json_loads cfg messages temperature
                max_tokens kwargs w) = Returns v)
  ∧ (body = [] →
     outcome (chat_completion net_post json_loads cfg messages temperature
                max_tokens kwargs w) = Returns VNone).
Proof.
  intros Hnet Hcontent. to_network. rewrite Hnet. simpl. split.
  - intros _ Hbody v Hjson.
    rewrite (content_truthy_nonempty r body), Hcontent by done.
    simpl. by rewrite Hjson.
  - intros ->. by rewrite content_truthy_empty.
Qed.

(** A chat answer comes back whole; an empty body comes back as [None]. *)
Lemma chat_completion_returns_decoded_or_none_run :
  outcome (chat_completion
             (Stub.always (PostReturned (mkResponse 200 (Some Stub.hello))))
             JsonFragment.json_loads Stub.cfg Stub.greeting Stub.half 16 ∅ 0%nat)
    = Returns (VDict {[ "content" := VStr "hello" ]})
  ∧ outcome (chat_completion
               (Stub.always (PostReturned (mkResponse 200 (Some []))))
               JsonFragment.json_loads Stub.cfg Stub.greeting Stub.half 16 ∅ 0%nat)
    = Returns VNone.
Proof.
  split.
  - refine (proj1 (chat_completion_returns_decoded_or_none _ _ _ _ _ _ _
                     0%nat 1%nat (mkResponse 200 (Some Stub.hello)) Stub.hello
                     eq_refl eq_refl) _ _ _ _).
    + simpl. lia.
    + discriminate.
    + vm_compute. reflexivity.
  - exact (proj2 (chat_completion_returns_decoded_or_none _ _ _ _ _ _ _
                    0%nat 1%nat (mkResponse 200 (Some [])) []
                    eq_refl eq_refl) eq_refl).
Defined.

(** C9: what [__send_request] returns depends on the body of the response
    left in scope and on nothing else: [None] when there is no body or an
    empty one, the decoded body otherwise; the status code plays no part, so
    the body of an error response is decoded and returned like any other. *)
Theorem send_request_value_depends_on_body_only {World : Type}
    (net_post : Request → World → post_outcome * World)
    (json_loads : bytes → option pyval) (cfg : ServerConfig)
    (payload : gmap string pyval) (api_endpoint : string) (w : World) :
  outcome (__send_request net_post json_loads cfg payload api_endpoint w) =
    match (net_post (request_to cfg payload api_endpoint) w).1 with
    | PostRaised _ => Returns VNone
    | PostReturned r =>
        match content r with
        | None | Some [] => Returns VNone
        | Some body =>
            match json_loads body with
            | Some v => Returns v
            | None => Raises JSONDecodeError
            end
        end
    | PostRaisedOther e => Raises (Uncaught e)
    end.
Proof.
  rewrite send_request_outcome.
  destruct (net_post _ w).1 as [e|r|x]; [done| |done].
  unfold content_truthy. by destruct (content r) as [[|b body]|].
Qed.

(** The same body under 200 and under 500 gives the same value. *)
Example send_request_same_body_two_statuses :
  let run status :=
    __send_request
      (Stub.always (PostReturned (mkResponse status (Some Stub.hello))))
      JsonFragment.json_loads Stub.cfg ∅ COMPLETION_ENDPOINT 0%nat in
  outcome (run 200) = Returns (VDict {[ "content" := VStr "hello" ]})
  ∧ outcome (run 500) = Returns (VDict {[ "content" := VStr "hello" ]})
  ∧ errors_logged (trace (run 200)) = []
  ∧ errors_logged (trace (run 500)) = [ReceivedAnError (HTTPError 500)].
Proof. vm_compute. done. Qed.

(** ** Determinism *)

(** C10: against a server whose answer is a function of the request alone,
    two calls of [completion] with the same arguments return the same thing,
    whatever the state of the network at each call, and in particular when
    one call follows the other. *)
Theorem completion_deterministic {World : Type}
    (net_post : Request → World → post_outcome * World)
    (json_loads : bytes → option pyval) (cfg : ServerConfig) (prompt : string)
    (temperature : spec_float) (max_tokens : Z) (kwargs : gmap string pyval) :
  (∀ (rq : Request) (w1 w2 : World), (net_post rq w1).1 = (net_post rq w2).1) →
  (∀ w1 w2 : World,
     outcome (completion net_post json_loads cfg prompt temperature max_tokens
                kwargs w1)
     = outcome (completion net_post json_loads cfg prompt temperature
                  max_tokens kwargs w2))
  ∧ (∀ w : World,
       let first := completion net_post json_loads cfg prompt temperature
                      max_tokens kwargs w in
       outcome (completion net_post json_loads cfg prompt temperature
                  max_tokens kwargs (world_after first))
       = outcome first).
Proof.
  intros Hdet.
  assert (∀ w1 w2 : World,
    outcome (completion net_post json_loads cfg prompt temperature max_tokens
               kwargs w1)
    = outcome (completion net_post json_loads cfg prompt temperature
                 max_tokens kwargs w2)) as Hsame.
  { intros w1 w2. to_network. by rewrite (Hdet _ w1 w2). }
  split; [exact Hsame|]. intros w first. apply Hsame.
Qed.

(** Two calls in a row against a server that always answers
    [{"content":"hello"}]. *)
Lemma completion_deterministic_twice :
  let net := Stub.always (PostReturned (mkResponse 200 (Some Stub.hello))) in
  let first := completion net JsonFragment.json_loads Stub.cfg "hi" Stub.half
                 16 ∅ 0%nat in
  outcome (completion net JsonFragment.json_loads Stub.cfg "hi" Stub.half 16 ∅
             (world_after first))
  = outcome first.
Proof.
  intros net first.
  exact (proj2 (completion_deterministic net JsonFragment.json_loads Stub.cfg
                  "hi" Stub.half 16 ∅ (λ _ _ _, eq_refl)) 0%nat).
Defined.

(** Without that assumption the two calls can differ: a server that answers
    once and is unreachable from then on. *)
Example completion_against_flaky_server :
  let net := Stub.flaky Stub.hello in
  let first := completion net JsonFragment.json_loads Stub.cfg "hi" Stub.half
                 16 ∅ 0%nat in
  outcome first = Returns (VStr "hello")
  ∧ world_after first = 1%nat
  ∧ outcome (completion net JsonFragment.json_loads Stub.cfg "hi" Stub.half
               16 ∅ (world_after first))
    = Raises TypeError.
Proof. vm_compute. done. Qed.

(** ** Failures *)

(** C1, as the code has it: a 4xx or 5xx answer is logged as an error, like
    a transport error, by both calls; what comes back is decided by the body
    of the answer.  With an empty body [chat_completion] returns [None], as
    it does after a transport error; a non-empty body is decoded and handled
    as after a success: [chat_completion] returns the decoded value and
    [completion] its [content] entry.  Each call is taken on its own: what
    the other endpoint would answer plays no part. *)
Theorem http_error_logged_and_body_decides {World : Type}
    (net_post : Request → World → post_outcome * World)
    (json_loads : bytes → option pyval) (cfg : ServerConfig) (prompt : string)
    (messages : list (gmap string string)) (temperature : spec_float)
    (max_tokens : Z) (kwargs : gmap string pyval)
    (w : World) (r : Response) :
  400 ≤ status_code r < 600 →
  let completed := completion net_post json_loads cfg prompt temperature
                     max_tokens kwargs w in
  let chatted := chat_completion net_post json_loads cfg messages temperature
                   max_tokens kwargs w in
  ((net_post (request_to cfg (completion_payload prompt temperature max_tokens
                                kwargs) COMPLETION_ENDPOINT) w).1
     = PostReturned r →
   errors_logged (trace completed)
     = [ReceivedAnError (HTTPError (status_code r))]
   ∧ (∀ body v, content r = Some body → body ≠ [] → json_loads body = Some v →
        outcome completed = subscript v "content"))
  ∧ ((net_post (request_to cfg (chat_payload messages temperature max_tokens
                                  kwargs) CHAT_ENDPOINT) w).1
       = PostReturned r →
     errors_logged (trace chatted)
       = [ReceivedAnError (HTTPError (status_code r))]
     ∧ (content_truthy r = false → outcome chatted = Returns VNone)
     ∧ (∀ body v, content r = Some body → body ≠ [] → json_loads body = Some v →
          outcome chatted = Returns v)).
Proof.
  intros Hstatus completed chatted. subst completed chatted.
  split; intros Hnet; to_network; rewrite Hnet;
    rewrite (raise_for_status_error r Hstatus).
  - split; [done|]. intros body v Hcontent Hbody Hjson.
    rewrite (content_truthy_nonempty r body), Hcontent by done.
    simpl. by rewrite Hjson.
  - split; [done|]. split.
    + by intros ->.
    + intros body v Hcontent Hbody Hjson.
      rewrite (content_truthy_nonempty r body), Hcontent by done.
      simpl. by rewrite Hjson.
Qed.

(** A 500 carrying [{"content":"hello"}] from a server whose chat endpoint
    cannot be reached: [completion] logs the error and returns ["hello"].
    A 500 carrying [{"error":"boom"}]: [chat_completion] logs the error and
    returns the decoded object. *)
Lemma http_error_logged_and_body_decides_500 :
  let completed :=
    completion (Stub.completion_only (mkResponse 500 (Some Stub.hello)))
      JsonFragment.json_loads Stub.cfg "hi" Stub.half 16 ∅ 0%nat in
  let chatted :=
    chat_completion
      (Stub.always (PostReturned (mkResponse 500 (Some Stub.boom))))
      JsonFragment.json_loads Stub.cfg Stub.greeting Stub.half 16 ∅ 0%nat in
  (errors_logged (trace completed) = [ReceivedAnError (HTTPError 500)]
   ∧ outcome completed = Returns (VStr "hello"))
  ∧ (errors_logged (trace chatted) = [ReceivedAnError (HTTPError 500)]
     ∧ outcome chatted = Returns (VDict {[ "error" := VStr "boom" ]})).
Proof.
  intros completed chatted. split.
  - destruct (proj1 (http_error_logged_and_body_decides
                       (Stub.completion_only (mkResponse 500 (Some Stub.hello)))
                       JsonFragment.json_loads Stub.cfg "hi" Stub.greeting
                       Stub.half 16 ∅ 0%nat (mkResponse 500 (Some Stub.hello))
                       ltac:(simpl; lia)))
      as [Hlog Hbody].
    + vm_compute. reflexivity.
    + split; [exact Hlog|].
      refine (Hbody Stub.hello (VDict {[ "content" := VStr "hello" ]})
                eq_refl _ _).
      * discriminate.
      * vm_compute. reflexivity.
  - destruct (proj2 (http_error_logged_and_body_decides
                       (Stub.always (PostReturned (mkResponse 500 (Some Stub.boom))))
                       JsonFragment.json_loads Stub.cfg "hi" Stub.greeting
                       Stub.half 16 ∅ 0%nat (mkResponse 500 (Some Stub.boom))
                       ltac:(simpl; lia)))
      as (Hlog & _ & Hbody).
    + reflexivity.
    + split; [exact Hlog|].
      refine (Hbody Stub.boom _ eq_refl _ _).
      * discriminate.
      * vm_compute. reflexivity.
Defined.

(** C1 as stated fails: after a 500 with the body [{"error":"boom"}]
    [chat_completion] returns the decoded object, not [None], and so not
    what it returns when the server cannot be reached. *)
Lemma http_500_with_body_is_not_absence :
  let answering := Stub.always (PostReturned (mkResponse 500 (Some Stub.boom))) in
  let unreachable := Stub.always (PostRaised ConnectionError) in
  let after_500 := chat_completion answering JsonFragment.json_loads Stub.cfg
                     Stub.greeting Stub.half 16 ∅ 0%nat in
  let after_refusal := chat_completion unreachable JsonFragment.json_loads
                         Stub.cfg Stub.greeting Stub.half 16 ∅ 0%nat in
  raise_for_status (mkResponse 500 (Some Stub.boom)) = Some (HTTPError 500)
  ∧ outcome after_500 = Returns (VDict {[ "error" := VStr "boom" ]})
  ∧ outcome after_refusal = Returns VNone
  ∧ outcome after_500 ≠ Returns VNone
  ∧ outcome after_500 ≠ outcome after_refusal.
Proof.
  intros answering unreachable after_500 after_refusal.
  assert (outcome after_500 = Returns (VDict {[ "error" := VStr "boom" ]})) as H500
    by (vm_compute; reflexivity).
  assert (outcome after_refusal = Returns VNone) as Hrefused
    by (vm_compute; reflexivity).
  rewrite H500, Hrefused. repeat split; discriminate.
Qed.

(** C5 on the code: after a transport error both calls have the error
    caught and logged and [__send_request] hands back [None];
    [chat_completion] returns it, while [completion] subscripts it and a
    [TypeError] leaves the client. *)
Theorem transport_error_completion_raises {World : Type}
    (net_post : Request → World → post_outcome * World)
    (json_loads : bytes → option pyval) (cfg : ServerConfig) (prompt : string)
    (messages : list (gmap string string)) (temperature : spec_float)
    (max_tokens : Z) (kwargs : gmap string pyval)
    (w wc wk : World) (e : RequestException) :
  net_post (request_to cfg (completion_payload prompt temperature max_tokens kwargs)
              COMPLETION_ENDPOINT) w = (PostRaised e, wc) →
  net_post (request_to cfg (chat_payload messages temperature max_tokens kwargs)
              CHAT_ENDPOINT) w = (PostRaised e, wk) →
  let completed := completion net_post json_loads cfg prompt temperature
                     max_tokens kwargs w in
  let chatted := chat_completion net_post json_loads cfg messages temperature
                   max_tokens kwargs w in
  errors_logged (trace chatted) = [ReceivedAnError e]
  ∧ outcome chatted = Returns VNone
  ∧ errors_logged (trace completed) = [ReceivedAnError e]
  ∧ outcome completed = Raises TypeError.
Proof.
  intros Hc Hk completed chatted. subst completed chatted.
  to_network. by rewrite Hc, Hk.
Qed.

(** [completion("hi", 0.5, 16)] against a server that refuses the
    connection. *)
Lemma transport_error_completion_raises_refused :
  let net := Stub.always (PostRaised ConnectionError) in
  outcome (chat_completion net JsonFragment.json_loads Stub.cfg Stub.greeting
             Stub.half 16 ∅ 0%nat) = Returns VNone
  ∧ outcome (completion net JsonFragment.json_loads Stub.cfg "hi" Stub.half
               16 ∅ 0%nat) = Raises TypeError.
Proof.
  intros net.
  pose proof (transport_error_completion_raises net JsonFragment.json_loads
                Stub.cfg "hi" Stub.greeting Stub.half 16 ∅ 0%nat 1%nat 1%nat
                ConnectionError eq_refl eq_refl) as (_ & Hchat & _ & Hcompletion).
  exact (conj Hchat Hcompletion).
Defined.

(** Where exceptions leave the client besides: an answer with an empty body
    makes [completion] subscript [None], an answer that decodes to an object
    without [content] makes it raise [KeyError], and an answer whose body is
    not JSON makes the decoder's error leave both calls. *)
Lemma absent_or_undecodable_response_raises {World : Type}
    (net_post : Request → World → post_outcome * World)
    (json_loads : bytes → option pyval) (cfg : ServerConfig) (prompt : string)
    (messages : list (gmap string string)) (temperature : spec_float)
    (max_tokens : Z) (kwargs : gmap string pyval)
    (w wc wk : World) (r : Response) :
  net_post (request_to cfg (completion_payload prompt temperature max_tokens kwargs)
              COMPLETION_ENDPOINT) w = (PostReturned r, wc) →
  net_post (request_to cfg (chat_payload messages temperature max_tokens kwargs)
              CHAT_ENDPOINT) w = (PostReturned r, wk) →
  let completed := completion net_post json_loads cfg prompt temperature
                     max_tokens kwargs w in
  let chatted := chat_completion net_post json_loads cfg messages temperature
                   max_tokens kwargs w in
  (content_truthy r = false → outcome completed = Raises TypeError)
  ∧ (∀ body d, content r = Some body → body ≠ [] →
       json_loads body = Some (VDict d) → d !! "content" = None →
       outcome completed = Raises (KeyError "content"))
  ∧ (∀ body, content r = Some body → body ≠ [] → json_loads body = None →
       outcome chatted = Raises JSONDecodeError
       ∧ outcome completed = Raises JSONDecodeError).
Proof.
  intros Hc Hk completed chatted. subst completed chatted.
  to_network. rewrite Hc, Hk. simpl. split; [|split].
  - by intros ->.
  - intros body d Hcontent Hbody Hjson Hkey.
    rewrite (content_truthy_nonempty r body), Hcontent by done.
    simpl. rewrite Hjson. simpl. by rewrite Hkey.
  - intros body Hcontent Hbody Hjson.
    rewrite (content_truthy_nonempty r body), Hcontent by done.
    simpl. by rewrite Hjson.
Qed.

(** C8, as the code has it: no [RequestException] of the POST or of the
    status check reaches the caller; each is caught and logged, while an
    exception of another class raised by the POST is not caught.
    [chat_completion] returns normally whenever the body of the answer is
    empty or decodes: [None] after a transport error or an empty body, the
    decoded body otherwise, also under an error status.  [completion]
    returns normally whenever the body decodes to an object holding
    [content]. *)
Theorem failures_caught_and_body_returned {World : Type}
    (net_post : Request → World → post_outcome * World)
    (json_loads : bytes → option pyval) (cfg : ServerConfig) (prompt : string)
    (messages : list (gmap string string)) (temperature : spec_float)
    (max_tokens : Z) (kwargs : gmap string pyval) (w : World) :
  let completed := completion net_post json_loads cfg prompt temperature
                     max_tokens kwargs w in
  let chatted := chat_completion net_post json_loads cfg messages temperature
                   max_tokens kwargs w in
  match (net_post (request_to cfg (chat_payload messages temperature max_tokens
                                     kwargs) CHAT_ENDPOINT) w).1 with
  | PostRaised e =>
      outcome chatted = Returns VNone
      ∧ errors_logged (trace chatted) = [ReceivedAnError e]
  | PostReturned r =>
      (400 ≤ status_code r < 600 →
       errors_logged (trace chatted) = [ReceivedAnError (HTTPError (status_code r))])
      ∧ (content_truthy r = false → outcome chatted = Returns VNone)
      ∧ (∀ body v, content r = Some body → body ≠ [] →
           json_loads body = Some v → outcome chatted = Returns v)
  | PostRaisedOther e =>
      outcome chatted = Raises (Uncaught e)
      ∧ errors_logged (trace chatted) = []
  end
  ∧ match (net_post (request_to cfg (completion_payload prompt temperature
                                       max_tokens kwargs) COMPLETION_ENDPOINT) w).1 with
    | PostRaised e => errors_logged (trace completed) = [ReceivedAnError e]
    | PostReturned r =>
        (400 ≤ status_code r < 600 →
         errors_logged (trace completed)
           = [ReceivedAnError (HTTPError (status_code r))])
        ∧ (∀ body d v, content r = Some body → body ≠ [] →
             json_loads body = Some (VDict d) → d !! "content" = Some v →
             outcome completed = Returns v)
    | PostRaisedOther e =>
        outcome completed = Raises (Uncaught e)
        ∧ errors_logged (trace completed) = []
    end.
Proof.
  intros completed chatted. subst completed chatted. to_network. split.
  - destruct (net_post _ w).1 as [e|r|x]; [done| |done].
    split; [|split].
    + intros Hstatus. by rewrite (raise_for_status_error r Hstatus).
    + by intros ->.
    + intros body v Hcontent Hbody Hjson.
      rewrite (content_truthy_nonempty r body), Hcontent by done.
      simpl. by rewrite Hjson.
  - destruct (net_post _ w).1 as [e|r|x]; [done| |done].
    split.
    + intros Hstatus. by rewrite (raise_for_status_error r Hstatus).
    + intros body d v Hcontent Hbody Hjson Hkey.
      rewrite (content_truthy_nonempty r body), Hcontent by done.
      simpl. rewrite Hjson. simpl. by rewrite Hkey.
Qed.

(** C8 as stated fails, in three ways: a 404 with the body
    [{"error":"boom"}] does not end in [None] but in the decoded object;
    [completion] against a server that cannot be reached raises [TypeError];
    and a body that is not JSON makes [chat_completion] raise the decoder's
    error. *)
Lemma failures_cross_the_boundary :
  let not_found := Stub.always (PostReturned (mkResponse 404 (Some Stub.boom))) in
  let unreachable := Stub.always (PostRaised ConnectionError) in
  let garbled := Stub.always (PostReturned (mkResponse 200 (Some Stub.page))) in
  let chat net := chat_completion net JsonFragment.json_loads Stub.cfg
                    Stub.greeting Stub.half 16 ∅ 0%nat in
  errors_logged (trace (chat not_found)) = [ReceivedAnError (HTTPError 404)]
  ∧ outcome (chat not_found) = Returns (VDict {[ "error" := VStr "boom" ]})
  ∧ outcome (chat not_found) ≠ Returns VNone
  ∧ outcome (completion unreachable JsonFragment.json_loads Stub.cfg "hi"
               Stub.half 16 ∅ 0%nat) = Raises TypeError
  ∧ outcome (chat garbled) = Raises JSONDecodeError.
Proof. vm_compute. done. Qed.

(** * Further properties of the client *)

(** ** What a call returns or raises, by the answer of the network *)

Section ByAnswer.

Context {World : Type}.
Variable net_post : Request → World → post_outcome * World.
Variable json_loads : bytes → option pyval.

Lemma chat_completion_outcome_by_body (cfg : ServerConfig)
    (messages : list (gmap string string)) (temperature : spec_float)
    (max_tokens : Z) (kwargs : gmap string pyval) (w : World) :
  outcome (chat_completion net_post json_loads cfg messages temperature
             max_tokens kwargs w) =
    match (net_post (request_to cfg (chat_payload messages temperature
                                       max_tokens kwargs) CHAT_ENDPOINT) w).1 with
    | PostRaised _ => Returns VNone
    | PostReturned r =>
        match content r with
        | None | Some [] => Returns VNone
        | Some body =>
            match json_loads body with
            | Some v => Returns v
            | None => Raises JSONDecodeError
            end
        end
    | PostRaisedOther e => Raises (Uncaught e)
    end.
Proof.
  to_network. destruct (net_post _ w).1 as [e|r|x]; [done| |done].
  unfold content_truthy. by destruct (content r) as [[|b body]|].
Qed.

Lemma completion_outcome_by_body (cfg : ServerConfig) (prompt : string)
    (temperature : spec_float) (max_tokens : Z)
    (kwargs : gmap string pyval) (w : World) :
  outcome (completion net_post json_loads cfg prompt temperature max_tokens
             kwargs w) =
    match (net_post (request_to cfg (completion_payload prompt temperature
                                       max_tokens kwargs) COMPLETION_ENDPOINT) w).1 with
    | PostRaised _ => Raises TypeError
    | PostReturned r =>
        match content r with
        | None | Some [] => Raises TypeError
        | Some body =>
            match json_loads body with
            | Some v => subscript v "content"
            | None => Raises JSONDecodeError
            end
        end
    | PostRaisedOther e => Raises (Uncaught e)
    end.
Proof.
  to_network. destruct (net_post _ w).1 as [e|r|x]; [done| |done].
  unfold content_truthy. destruct (content r) as [[|b body]|]; try done.
  simpl. by destruct (json_loads _).
Qed.

End ByAnswer.

Lemma subscript_returns_iff (obj v : pyval) (key : string) :
  subscript obj key = Returns v ↔ ∃ d, obj = VDict d ∧ d !! key = Some v.
Proof.
  split.
  - destruct obj as [| | | | | |d]; simpl; try discriminate.
    destruct (d !! key) as [x|] eqn:E; [|discriminate].
    intros [= ->]. by exists d.
  - intros (d & -> & Hkey). simpl. by rewrite Hkey.
Qed.

Lemma subscript_key_error_iff (obj : pyval) (key k : string) :
  subscript obj key = Raises (KeyError k)
  ↔ k = key ∧ ∃ d, obj = VDict d ∧ d !! key = None.
Proof.
  split.
  - destruct obj as [| | | | | |d]; simpl; try discriminate.
    destruct (d !! key) as [x|] eqn:E; [discriminate|].
    intros [= ->]. split; [done|]. by exists d.
  - intros (-> & d & -> & Hkey). simpl. by rewrite Hkey.
Qed.

Lemma subscript_type_error_iff (obj : pyval) (key : string) :
  subscript obj key = Raises TypeError ↔ ∀ d, obj ≠ VDict d.
Proof.
  split.
  - destruct obj as [| | | | | |d]; simpl; try (intros _ d'; discriminate).
    by destruct (d !! key).
  - intros Hnot. destruct obj as [| | | | | |d]; simpl; try done.
    by destruct (Hnot d).
Qed.

Lemma subscript_never_json_error (obj : pyval) (key : string) :
  subscript obj key ≠ Raises JSONDecodeError.
Proof.
  destruct obj as [| | | | | |d]; simpl; try done.
  by destruct (d !! key).
Qed.

(** X1: [completion] returns a value [v] exactly when the POST came back
    with a non-empty body that decodes to an object whose [content] entry is
    [v]; in every other case it raises. *)
Theorem completion_returns_iff {World : Type}
    (net_post : Request → World → post_outcome * World)
    (json_loads : bytes → option pyval) (cfg : ServerConfig) (prompt : string)
    (temperature : spec_float) (max_tokens : Z) (kwargs : gmap string pyval)
    (w : World) (v : pyval) :
  outcome (completion net_post json_loads cfg prompt temperature max_tokens
             kwargs w) = Returns v
  ↔ ∃ (r : Response) (body : bytes) (d : gmap string pyval),
      (net_post (request_to cfg (completion_payload prompt temperature
                                   max_tokens kwargs) COMPLETION_ENDPOINT) w).1
        = PostReturned r
      ∧ content r = Some body ∧ body ≠ []
      ∧ json_loads body = Some (VDict d) ∧ d !! "content" = Some v.
Proof.
  rewrite completion_outcome_by_body.
  destruct (net_post _ w).1 as [e|r|x];
    [split; [done|]; by intros (r & body & d & ? & _)| |
     split; [done|]; by intros (r & body & d & ? & _)].
  destruct (content r) as [[|b body]|] eqn:Hcontent.
  - split; [done|]. intros (r' & body & d & [= <-] & Hc & Hne & _). congruence.
  - destruct (json_loads (b :: body)) as [obj|] eqn:Hjson.
    + rewrite subscript_returns_iff. split.
      * intros (d & -> & Hkey). by exists r, (b :: body), d.
      * intros (r' & body' & d & [= <-] & Hc & _ & Hj & Hkey).
        exists d. split; [|done]. congruence.
    + split; [done|].
      intros (r' & body' & d & [= <-] & Hc & _ & Hj & _). congruence.
  - split; [done|]. intros (r' & body & d & [= <-] & Hc & _). congruence.
Qed.

(** X2: the only [KeyError] that [completion] raises is the one for
    [content], and it raises it exactly when the body decodes to an object
    that lacks this key. *)
Theorem completion_key_error_iff {World : Type}
    (net_post : Request → World → post_outcome * World)
    (json_loads : bytes → option pyval) (cfg : ServerConfig) (prompt : string)
    (temperature : spec_float) (max_tokens : Z) (kwargs : gmap string pyval)
    (w : World) (k : string) :
  outcome (completion net_post json_loads cfg prompt temperature max_tokens
             kwargs w) = Raises (KeyError k)
  ↔ k = "content"
    ∧ ∃ (r : Response) (body : bytes) (d : gmap string pyval),
        (net_post (request_to cfg (completion_payload prompt temperature
                                     max_tokens kwargs) COMPLETION_ENDPOINT) w).1
          = PostReturned r
        ∧ content r = Some body ∧ body ≠ []
        ∧ json_loads body = Some (VDict d) ∧ d !! "content" = None.
Proof.
  rewrite completion_outcome_by_body.
  destruct (net_post _ w).1 as [e|r|x];
    [split; [done|]; by intros (_ & r & body & d & ? & _)| |
     split; [done|]; by intros (_ & r & body & d & ? & _)].
  destruct (content r) as [[|b body]|] eqn:Hcontent.
  - split; [done|].
    intros (_ & r' & body & d & [= <-] & Hc & Hne & _). congruence.
  - destruct (json_loads (b :: body)) as [obj|] eqn:Hjson.
    + rewrite subscript_key_error_iff. split.
      * intros (-> & d & -> & Hkey). split; [done|].
        by exists r, (b :: body), d.
      * intros (-> & r' & body' & d & [= <-] & Hc & _ & Hj & Hkey).
        split; [done|]. exists d. split; [|done]. congruence.
    + split; [done|].
      intros (_ & r' & body' & d & [= <-] & Hc & _ & Hj & _). congruence.
  - split; [done|].
    intros (_ & r' & body & d & [= <-] & Hc & _). congruence.
Qed.

(** X3: [completion] raises [TypeError] exactly when there is nothing to
    subscript or the wrong thing: the POST raised, the answer has no body or
    an empty one, or the body decodes to something that is no object (a
    list, a string, a number, a boolean, [null]). *)
Theorem completion_type_error_iff {World : Type}
    (net_post : Request → World → post_outcome * World)
    (json_loads : bytes → option pyval) (cfg : ServerConfig) (prompt : string)
    (temperature : spec_float) (max_tokens : Z) (kwargs : gmap string pyval)
    (w : World) :
  let answer :=
    (net_post (request_to cfg (completion_payload prompt temperature
                                 max_tokens kwargs) COMPLETION_ENDPOINT) w).1 in
  outcome (completion net_post json_loads cfg prompt temperature max_tokens
             kwargs w) = Raises TypeError
  ↔ (∃ e, answer = PostRaised e)
    ∨ (∃ r, answer = PostReturned r
            ∧ (content r = None ∨ content r = Some []))
    ∨ (∃ r body obj, answer = PostReturned r
                     ∧ content r = Some body ∧ body ≠ []
                     ∧ json_loads body = Some obj ∧ ∀ d, obj ≠ VDict d).
Proof.
  intros answer. subst answer. rewrite completion_outcome_by_body.
  destruct (net_post _ w).1 as [e|r|x];
    [split; [|done]; intros _; left; by exists e| |
     split; [done|];
     by intros [(e & [=])|[(r & [=] & _)|(r & body & obj & [=] & _)]]].
  destruct (content r) as [[|b body]|] eqn:Hcontent.
  - split; [|done]. intros _. right. left. exists r. auto.
  - destruct (json_loads (b :: body)) as [obj|] eqn:Hjson.
    + rewrite subscript_type_error_iff. split.
      * intros Hnot. right. right. by exists r, (b :: body), obj.
      * intros [(e & [=])|[(r' & [= <-] & [Hc|Hc])|
                 (r' & body' & obj' & [= <-] & Hc & _ & Hj & Hnot)]];
          congruence.
    + split; [done|].
      intros [(e & [=])|[(r' & [= <-] & [Hc|Hc])|
               (r' & body' & obj' & [= <-] & Hc & _ & Hj & Hnot)]];
        congruence.
  - split; [|done]. intros _. right. left. exists r. auto.
Qed.

(** X4: [chat_completion] raises in two cases and in no other: the POST
    raised an exception that is no [RequestException], which leaves the call
    as it is, or the POST came back with a non-empty body that is not JSON,
    which gives the decoder's error.  The call adds no exception of its own,
    and no [RequestException] of the POST or of the status check leaves
    it. *)
Theorem chat_completion_raises_iff {World : Type}
    (net_post : Request → World → post_outcome * World)
    (json_loads : bytes → option pyval) (cfg : ServerConfig)
    (messages : list (gmap string string)) (temperature : spec_float)
    (max_tokens : Z) (kwargs : gmap string pyval) (w : World) (e : exn) :
  let answer :=
    (net_post (request_to cfg (chat_payload messages temperature max_tokens
                                 kwargs) CHAT_ENDPOINT) w).1 in
  outcome (chat_completion net_post json_loads cfg messages temperature
             max_tokens kwargs w) = Raises e
  ↔ (∃ x : OtherException, answer = PostRaisedOther x ∧ e = Uncaught x)
    ∨ (e = JSONDecodeError
       ∧ ∃ (r : Response) (body : bytes),
           answer = PostReturned r
           ∧ content r = Some body ∧ body ≠ [] ∧ json_loads body = None).
Proof.
  intros answer. subst answer. rewrite chat_completion_outcome_by_body.
  destruct (net_post _ w).1 as [e'|r|x].
  - split; [done|].
    by intros [(x & [=] & _)|(_ & r & body & [=] & _)].
  - destruct (content r) as [[|b body]|] eqn:Hcontent.
    + split; [done|].
      intros [(x & [=] & _)|(_ & r' & body & [= <-] & Hc & Hne & _)].
      congruence.
    + destruct (json_loads (b :: body)) as [obj|] eqn:Hjson.
      * split; [done|].
        intros [(x & [=] & _)|(_ & r' & body' & [= <-] & Hc & _ & Hj)].
        congruence.
      * split.
        -- intros [= <-]. right. split; [done|]. by exists r, (b :: body).
        -- by intros [(x & [=] & _)|(-> & _)].
    + split; [done|].
      intros [(x & [=] & _)|(_ & r' & body & [= <-] & Hc & _)]. congruence.
  - split.
    + intros [= <-]. left. by exists x.
    + intros [(x' & [= <-] & ->)|(_ & r & body & [=] & _)]. done.
Qed.

(** X5: [completion] raises the decoder's error exactly when the POST came
    back with a non-empty body that is not JSON, whatever the status: the
    decoding happens after the [try] block. *)
Theorem completion_json_error_iff {World : Type}
    (net_post : Request → World → post_outcome * World)
    (json_loads : bytes → option pyval) (cfg : ServerConfig) (prompt : string)
    (temperature : spec_float) (max_tokens : Z) (kwargs : gmap string pyval)
    (w : World) :
  outcome (completion net_post json_loads cfg prompt temperature max_tokens
             kwargs w) = Raises JSONDecodeError
  ↔ ∃ (r : Response) (body : bytes),
      (net_post (request_to cfg (completion_payload prompt temperature
                                   max_tokens kwargs) COMPLETION_ENDPOINT) w).1
        = PostReturned r
      ∧ content r = Some body ∧ body ≠ [] ∧ json_loads body = None.
Proof.
  rewrite completion_outcome_by_body.
  destruct (net_post _ w).1 as [e'|r|x];
    [split; [done|]; by intros (r & body & ? & _)| |
     split; [done|]; by intros (r & body & ? & _)].
  destruct (content r) as [[|b body]|] eqn:Hcontent.
  - split; [done|]. intros (r' & body & [= <-] & Hc & Hne & _). congruence.
  - destruct (json_loads (b :: body)) as [obj|] eqn:Hjson.
    + split.
      * intros Hsub. by destruct (subscript_never_json_error obj "content").
      * intros (r' & body' & [= <-] & Hc & _ & Hj). congruence.
    + split; [|done]. intros _. by exists r, (b :: body).
  - split; [done|]. intros (r' & body & [= <-] & Hc & _). congruence.
Qed.

(** ** What a call leaves behind: records and network steps *)

Lemma raise_for_status_none_iff (r : Response) :
  raise_for_status r = None ↔ ¬ (400 ≤ status_code r < 600).
Proof.
  unfold raise_for_status.
  destruct (400 <=? status_code r) eqn:E1;
    destruct (status_code r <? 600) eqn:E2; simpl;
    rewrite ?Z.leb_le, ?Z.leb_gt, ?Z.ltb_lt, ?Z.ltb_ge in *;
    split; (done || lia).
Qed.

Section Records.

Context {World : Type}.
Variable net_post : Request → World → post_outcome * World.
Variable json_loads : bytes → option pyval.

Lemma send_request_no_error_iff (cfg : ServerConfig)
    (payload : gmap string pyval) (api_endpoint : string) (w : World) :
  errors_logged
      (trace (__send_request net_post json_loads cfg payload api_endpoint w)) = []
  ↔ (∃ r, (net_post (request_to cfg payload api_endpoint) w).1 = PostReturned r
          ∧ ¬ (400 ≤ status_code r < 600))
    ∨ (∃ x, (net_post (request_to cfg payload api_endpoint) w).1
              = PostRaisedOther x).
Proof.
  rewrite send_request_errors_logged.
  destruct (net_post _ w).1 as [e|r|x].
  - split; [done|]. by intros [(r & [=] & _)|(x & [=])].
  - destruct (raise_for_status r) as [e|] eqn:Hstatus.
    + split; [done|]. intros [(r' & [= <-] & Hnot)|(x & [=])].
      apply raise_for_status_none_iff in Hnot. congruence.
    + split; [|done]. intros _. left. exists r. split; [done|].
      by apply raise_for_status_none_iff.
  - split; [|done]. intros _. right. by exists x.
Qed.

Lemma send_request_error_iff (cfg : ServerConfig)
    (payload : gmap string pyval) (api_endpoint : string) (w : World) :
  errors_logged
      (trace (__send_request net_post json_loads cfg payload api_endpoint w)) ≠ []
  ↔ (∃ e, (net_post (request_to cfg payload api_endpoint) w).1 = PostRaised e)
    ∨ (∃ r, (net_post (request_to cfg payload api_endpoint) w).1 = PostReturned r
            ∧ 400 ≤ status_code r < 600).
Proof.
  rewrite send_request_errors_logged.
  destruct (net_post _ w).1 as [e|r|x].
  - split; [|done]. intros _. left. by exists e.
  - destruct (raise_for_status r) as [e|] eqn:Hstatus.
    + split; [|done]. intros _. right. exists r. split; [done|].
      destruct (decide (400 ≤ status_code r < 600)) as [?|Hnot]; [done|].
      apply raise_for_status_none_iff in Hnot. congruence.
    + split; [done|]. intros [(e & [=])|(r' & [= <-] & Hin)].
      rewrite (raise_for_status_error r Hin) in Hstatus. done.
  - split; [done|]. by intros [(e & [=])|(r & [=] & _)].
Qed.

Lemma send_request_one_error_at_most (cfg : ServerConfig)
    (payload : gmap string pyval) (api_endpoint : string) (w : World) :
  (length (errors_logged
             (trace (__send_request net_post json_loads cfg payload
                       api_endpoint w))) ≤ 1)%nat.
Proof.
  rewrite send_request_errors_logged.
  destruct (net_post _ w).1 as [e|r|x]; [done| |simpl; lia].
  destruct (raise_for_status r); simpl; lia.
Qed.

Lemma send_request_logs_headers (cfg : ServerConfig)
    (payload : gmap string pyval) (api_endpoint : string) (w : World) :
  Log DEBUG (RawRequestHeader (request_headers cfg))
    ∈ trace (__send_request net_post json_loads cfg payload api_endpoint w).
Proof.
  rewrite send_request_run. cbv zeta.
  destruct (net_post _ w).1 as [e|r|x]; unfold trace; simpl;
    do 2 apply list_elem_of_further; apply list_elem_of_here.
Qed.

Lemma send_request_world (cfg : ServerConfig)
    (payload : gmap string pyval) (api_endpoint : string) (w : World) :
  world_after (__send_request net_post json_loads cfg payload api_endpoint w)
    = (net_post (request_to cfg payload api_endpoint) w).2.
Proof.
  rewrite send_request_run. cbv zeta. by destruct (net_post _ w).1.
Qed.

(** The events of a public call contain those of its one run of
    [__send_request], and the call leaves the network where that run left
    it. *)
Lemma completion_extends_run (cfg : ServerConfig) (prompt : string)
    (temperature : spec_float) (max_tokens : Z)
    (kwargs : gmap string pyval) (w : World) :
  let run := __send_request net_post json_loads cfg
               (completion_payload prompt temperature max_tokens kwargs)
               COMPLETION_ENDPOINT w in
  let completed := completion net_post json_loads cfg prompt temperature
                     max_tokens kwargs w in
  (∃ rest, trace completed = trace run ++ rest)
  ∧ world_after completed = world_after run.
Proof.
  intros run completed. subst run completed. rewrite completion_run. cbv zeta.
  destruct (outcome (__send_request _ _ _ _ _ _)) as [response|e].
  - destruct (subscript response "content"); split; try done.
    + by eexists.
    + exists []. by rewrite app_nil_r.
  - split; [|done]. exists []. by rewrite app_nil_r.
Qed.

Lemma chat_completion_extends_run (cfg : ServerConfig)
    (messages : list (gmap string string)) (temperature : spec_float)
    (max_tokens : Z) (kwargs : gmap string pyval) (w : World) :
  let payload := chat_payload messages temperature max_tokens kwargs in
  let run := __send_request net_post json_loads cfg payload CHAT_ENDPOINT w in
  let chatted := chat_completion net_post json_loads cfg messages temperature
                   max_tokens kwargs w in
  (∃ rest, trace chatted
           = Log DEBUG (SendingChatPrompt payload) :: trace run ++ rest)
  ∧ world_after chatted = world_after run.
Proof.
  intros payload run chatted. subst payload run chatted.
  rewrite chat_completion_run. cbv zeta.
  destruct (outcome (__send_request _ _ _ _ _ _)) as [response|e];
    (split; [|done]).
  - by eexists.
  - exists []. by rewrite app_nil_r.
Qed.

End Records.

(** X6: a public call writes an error record exactly when its POST raised
    a [RequestException] or came back with a status from 400 to 599, and
    never more than one.  No error record is written for an answer with any
    other status, 2xx or not, nor when the POST raises an exception of
    another class, which leaves the call unrecorded. *)
Theorem error_record_iff_failure {World : Type}
    (net_post : Request → World → post_outcome * World)
    (json_loads : bytes → option pyval) (cfg : ServerConfig) (prompt : string)
    (messages : list (gmap string string)) (temperature : spec_float)
    (max_tokens : Z) (kwargs : gmap string pyval) (w : World) :
  let completed := completion net_post json_loads cfg prompt temperature
                     max_tokens kwargs w in
  let chatted := chat_completion net_post json_loads cfg messages temperature
                   max_tokens kwargs w in
  let answer_completion :=
    (net_post (request_to cfg (completion_payload prompt temperature
                                 max_tokens kwargs) COMPLETION_ENDPOINT) w).1 in
  let answer_chat :=
    (net_post (request_to cfg (chat_payload messages temperature max_tokens
                                 kwargs) CHAT_ENDPOINT) w).1 in
  (errors_logged (trace completed) ≠ []
   ↔ (∃ e, answer_completion = PostRaised e)
     ∨ (∃ r, answer_completion = PostReturned r ∧ 400 ≤ status_code r < 600))
  ∧ (errors_logged (trace chatted) ≠ []
     ↔ (∃ e, answer_chat = PostRaised e)
       ∨ (∃ r, answer_chat = PostReturned r ∧ 400 ≤ status_code r < 600))
  ∧ (errors_logged (trace completed) = []
     ↔ (∃ r, answer_completion = PostReturned r
             ∧ ¬ (400 ≤ status_code r < 600))
       ∨ (∃ x, answer_completion = PostRaisedOther x))
  ∧ (errors_logged (trace chatted) = []
     ↔ (∃ r, answer_chat = PostReturned r ∧ ¬ (400 ≤ status_code r < 600))
       ∨ (∃ x, answer_chat = PostRaisedOther x))
  ∧ (length (errors_logged (trace completed)) ≤ 1)%nat
  ∧ (length (errors_logged (trace chatted)) ≤ 1)%nat.
Proof.
  intros completed chatted answer_completion answer_chat.
  subst completed chatted answer_completion answer_chat.
  rewrite completion_errors_logged, chat_completion_errors_logged.
  repeat split;
    first [ by apply send_request_error_iff
          | by apply send_request_no_error_iff
          | apply send_request_one_error_at_most ].
Qed.

(** An API key ending in a newline makes the HTTP layer under
    [requests.post] raise [ValueError]: it leaves both calls, and the error
    log stays empty. *)
Example uncaught_exception_is_not_recorded :
  let net := Stub.always (PostRaisedOther ValueError) in
  let completed := completion net JsonFragment.json_loads Stub.cfg "hi"
                     Stub.half 16 ∅ 0%nat in
  let chatted := chat_completion net JsonFragment.json_loads Stub.cfg
                   Stub.greeting Stub.half 16 ∅ 0%nat in
  outcome completed = Raises (Uncaught ValueError)
  ∧ errors_logged (trace completed) = []
  ∧ outcome chatted = Raises (Uncaught ValueError)
  ∧ errors_logged (trace chatted) = [].
Proof. vm_compute. done. Qed.

(** X7: every public call writes the request headers to the debug log,
    bearer token included: the configured API key appears in the records of
    each call. *)
Theorem api_key_in_debug_log {World : Type}
    (net_post : Request → World → post_outcome * World)
    (json_loads : bytes → option pyval) (cfg : ServerConfig) (prompt : string)
    (messages : list (gmap string string)) (temperature : spec_float)
    (max_tokens : Z) (kwargs : gmap string pyval) (w : World) :
  let logged : event :=
    Log DEBUG (RawRequestHeader
                 {[ "accept" := "application/json";
                    "content-type" := "application/json";
                    "Authorization" := "Bearer " +:+ api_key cfg ]}) in
  logged ∈ trace (completion net_post json_loads cfg prompt temperature
                    max_tokens kwargs w)
  ∧ logged ∈ trace (chat_completion net_post json_loads cfg messages
                      temperature max_tokens kwargs w).
Proof.
  intros logged. subst logged. rewrite <- request_headers_eq. split.
  - destruct (completion_extends_run net_post json_loads cfg prompt
                temperature max_tokens kwargs w) as [[rest ->] _].
    apply elem_of_app. left. apply send_request_logs_headers.
  - destruct (chat_completion_extends_run net_post json_loads cfg messages
                temperature max_tokens kwargs w) as [[rest ->] _].
    apply list_elem_of_further, elem_of_app. left.
    apply send_request_logs_headers.
Qed.

(** X8: a public call steps the network once, by its one POST, whether it
    returns or raises: there is no retry after a failure and no second
    request after a success. *)
Theorem one_network_step_per_call {World : Type}
    (net_post : Request → World → post_outcome * World)
    (json_loads : bytes → option pyval) (cfg : ServerConfig) (prompt : string)
    (messages : list (gmap string string)) (temperature : spec_float)
    (max_tokens : Z) (kwargs : gmap string pyval) (w : World) :
  world_after (completion net_post json_loads cfg prompt temperature
                 max_tokens kwargs w)
    = (net_post (request_to cfg (completion_payload prompt temperature
                                   max_tokens kwargs) COMPLETION_ENDPOINT) w).2
  ∧ world_after (chat_completion net_post json_loads cfg messages temperature
                   max_tokens kwargs w)
    = (net_post (request_to cfg (chat_payload messages temperature
                                   max_tokens kwargs) CHAT_ENDPOINT) w).2.
Proof.
  split.
  - destruct (completion_extends_run net_post json_loads cfg prompt
                temperature max_tokens kwargs w) as [_ ->].
    apply send_request_world.
  - destruct (chat_completion_extends_run net_post json_loads cfg messages
                temperature max_tokens kwargs w) as [_ ->].
    apply send_request_world.
Qed.

(** ** Extras that Python can deliver *)

(** A dict of three distinct keys and a dict that holds none of them have
    nothing in common, so merging them in either order gives the same. *)
Lemma three_keys_disjoint {V : Type} (k1 k2 k3 : string) (v1 v2 v3 : V)
    (kwargs : gmap string V) :
  kwargs !! k1 = None → kwargs !! k2 = None → kwargs !! k3 = None →
  kwargs ##ₘ {[ k1 := v1; k2 := v2; k3 := v3 ]}.
Proof.
  intros H1 H2 H3. apply map_disjoint_alt. intros k.
  destruct (decide (k = k1)) as [->|?]; [by left|].
  destruct (decide (k = k2)) as [->|?]; [by left|].
  destruct (decide (k = k3)) as [->|?]; [by left|].
  right. rewrite !lookup_insert_ne by done. by apply lookup_singleton_ne.
Qed.

(** X9: [chat_completion] takes [messages], [temperature] and [max_tokens]
    as named parameters, so its extras never hold these keys; for such
    extras the one request carries the three arguments as given, nothing
    shadows them, and the order of the merge does not matter. *)
Theorem chat_completion_sends_arguments_as_given {World : Type}
    (net_post : Request → World → post_outcome * World)
    (json_loads : bytes → option pyval) (cfg : ServerConfig)
    (messages : list (gmap string string)) (temperature : spec_float)
    (max_tokens : Z) (kwargs : gmap string pyval) (w : World) :
  kwargs !! "messages" = None →
  kwargs !! "temperature" = None →
  kwargs !! "max_tokens" = None →
  ∃ rq : Request,
    posts_of (trace (chat_completion net_post json_loads cfg messages
                       temperature max_tokens kwargs w)) = [rq]
    ∧ json rq !! "messages"
      = Some (VList ((λ m, VDict (VStr <$> m)) <$> messages))
    ∧ json rq !! "temperature" = Some (VFloat temperature)
    ∧ json rq !! "max_tokens" = Some (VInt max_tokens)
    ∧ json rq
      = {[ "messages" := VList ((λ m, VDict (VStr <$> m)) <$> messages);
           "temperature" := VFloat temperature;
           "max_tokens" := VInt max_tokens ]} ∪ kwargs
    ∧ size (json rq) = (3 + size kwargs)%nat.
Proof.
  intros Hm Ht Hx. eexists. split; [apply chat_completion_posts|].
  simpl. rewrite chat_payload_union.
  pose proof (three_keys_disjoint "messages" "temperature" "max_tokens"
                (messages_value messages) (VFloat temperature)
                (VInt max_tokens) kwargs Hm Ht Hx) as Hdisj.
  rewrite !merged_lookup, Hm, Ht, Hx.
  split; [done|]. split; [done|]. split; [done|].
  split; [by apply map_union_comm|].
  rewrite map_size_disj_union by done.
  rewrite !map_size_insert_None, map_size_singleton by done. lia.
Qed.

(** A chat call with the extra [stop]. *)
Lemma chat_completion_sends_arguments_as_given_stop :
  ∃ rq : Request,
    posts_of (trace (chat_completion
                       (Stub.always (PostReturned (mkResponse 200 (Some Stub.hello))))
                       JsonFragment.json_loads Stub.cfg Stub.greeting Stub.half
                       16 {[ "stop" := VList [VStr "."] ]} 0%nat)) = [rq]
    ∧ json rq !! "temperature" = Some (VFloat Stub.half)
    ∧ json rq !! "max_tokens" = Some (VInt 16)
    ∧ size (json rq) = 4%nat.
Proof.
  pose (extras := ({[ "stop" := VList [VStr "."] ]} : gmap string pyval)).
  assert (extras !! "messages" = None) as Hm by reflexivity.
  assert (extras !! "temperature" = None) as Ht by reflexivity.
  assert (extras !! "max_tokens" = None) as Hx by reflexivity.
  destruct (chat_completion_sends_arguments_as_given
              (Stub.always (PostReturned (mkResponse 200 (Some Stub.hello))))
              JsonFragment.json_loads Stub.cfg Stub.greeting Stub.half 16
              extras 0%nat Hm Ht Hx)
    as (rq & Hposts & _ & Htemperature & Hmax & _ & Hsize).
  exists rq. exact (conj Hposts (conj Htemperature (conj Hmax Hsize))).
Defined.

(** X10: [completion] takes [prompt], [temperature] and [max_tokens] as
    named parameters, so its extras never hold these keys; for such extras
    the one request carries the prompt and the temperature as given, the
    token limit under [n_predict] unless the extras bring an [n_predict] of
    their own, and no [max_tokens] entry at all. *)
Theorem completion_sends_arguments_as_given {World : Type}
    (net_post : Request → World → post_outcome * World)
    (json_loads : bytes → option pyval) (cfg : ServerConfig) (prompt : string)
    (temperature : spec_float) (max_tokens : Z) (kwargs : gmap string pyval)
    (w : World) :
  kwargs !! "prompt" = None →
  kwargs !! "temperature" = None →
  kwargs !! "max_tokens" = None →
  ∃ rq : Request,
    posts_of (trace (completion net_post json_loads cfg prompt temperature
                       max_tokens kwargs w)) = [rq]
    ∧ json rq !! "prompt" = Some (VStr prompt)
    ∧ json rq !! "temperature" = Some (VFloat temperature)
    ∧ json rq !! "n_predict"
      = Some (default (VInt max_tokens) (kwargs !! "n_predict"))
    ∧ json rq !! "max_tokens" = None.
Proof.
  intros Hp Ht Hx. eexists. split; [apply completion_posts|].
  simpl. rewrite completion_payload_union, !merged_lookup, Hp, Ht, Hx.
  split; [done|]. split; [done|]. split; [|done].
  by destruct (kwargs !! "n_predict").
Qed.

(** A completion call whose extras bring their own [n_predict]. *)
Lemma completion_sends_arguments_as_given_n_predict :
  ∃ rq : Request,
    posts_of (trace (completion
                       (Stub.always (PostReturned (mkResponse 200 (Some Stub.hello))))
                       JsonFragment.json_loads Stub.cfg "hi" Stub.half 16
                       {[ "n_predict" := VInt 5 ]} 0%nat)) = [rq]
    ∧ json rq !! "prompt" = Some (VStr "hi")
    ∧ json rq !! "n_predict" = Some (VInt 5)
    ∧ json rq !! "max_tokens" = None.
Proof.
  pose (extras := ({[ "n_predict" := VInt 5 ]} : gmap string pyval)).
  assert (extras !! "prompt" = None) as Hp by reflexivity.
  assert (extras !! "temperature" = None) as Ht by reflexivity.
  assert (extras !! "max_tokens" = None) as Hx by reflexivity.
  destruct (completion_sends_arguments_as_given
              (Stub.always (PostReturned (mkResponse 200 (Some Stub.hello))))
              JsonFragment.json_loads Stub.cfg "hi" Stub.half 16
              extras 0%nat Hp Ht Hx)
    as (rq & Hposts & Hprompt & _ & Hn & Hmax).
  exists rq. exact (conj Hposts (conj Hprompt (conj Hn Hmax))).
Defined.

(** ** One call in terms of the other *)

(** X11: when the network answers the two requests alike, [completion]
    gives what [chat_completion] gives, subscripted by [content]: the same
    exception when the chat call raises, the [content] entry of its value
    when that is an object holding one, and an exception of the subscript
    otherwise, as for the [None] of a failed request. *)
Theorem completion_is_chat_completion_then_content {World : Type}
    (net_post : Request → World → post_outcome * World)
    (json_loads : bytes → option pyval) (cfg : ServerConfig) (prompt : string)
    (messages : list (gmap string string)) (temperature : spec_float)
    (max_tokens : Z) (kwargs : gmap string pyval) (w : World) :
  (net_post (request_to cfg (completion_payload prompt temperature max_tokens
                               kwargs) COMPLETION_ENDPOINT) w).1
  = (net_post (request_to cfg (chat_payload messages temperature max_tokens
                                 kwargs) CHAT_ENDPOINT) w).1 →
  outcome (completion net_post json_loads cfg prompt temperature max_tokens
             kwargs w)
  = match outcome (chat_completion net_post json_loads cfg messages
                     temperature max_tokens kwargs w) with
    | Returns v => subscript v "content"
    | Raises e => Raises e
    end.
Proof. intros Hsame. to_network. by rewrite Hsame. Qed.

(** Against a server that cannot be reached: [None] from the chat call, the
    [TypeError] of subscripting it from the completion call. *)
Lemma completion_is_chat_completion_then_content_refused :
  let net := Stub.always (PostRaised ConnectionError) in
  outcome (chat_completion net JsonFragment.json_loads Stub.cfg Stub.greeting
             Stub.half 16 ∅ 0%nat) = Returns VNone
  ∧ outcome (completion net JsonFragment.json_loads Stub.cfg "hi" Stub.half
               16 ∅ 0%nat) = subscript VNone "content".
Proof.
  intros net. split; [reflexivity|].
  exact (completion_is_chat_completion_then_content net
           JsonFragment.json_loads Stub.cfg "hi" Stub.greeting Stub.half 16 ∅
           0%nat eq_refl).
Defined.

(** ** The debug records of the results *)

(** [__send_request] writes no record of a result. *)
Lemma send_request_no_result_record {World : Type}
    (net_post : Request → World → post_outcome * World)
    (json_loads : bytes → option pyval) (cfg : ServerConfig)
    (payload : gmap string pyval) (api_endpoint : string) (w : World)
    (ev : event) :
  ev ∈ trace (__send_request net_post json_loads cfg payload api_endpoint w) →
  (∀ p v, ev ≠ Log DEBUG (PromptResult p v))
  ∧ (∀ v, ev ≠ Log DEBUG (ChatResult v)).
Proof.
  rewrite send_request_run. cbv zeta.
  destruct (net_post _ w).1 as [e|r|x]; unfold trace; simpl; intros Hin;
    repeat (apply elem_of_cons in Hin as [->|Hin];
            [split; intros; discriminate|]);
    try by apply not_elem_of_nil in Hin.
  apply list_elem_of_singleton in Hin as ->.
  destruct (raise_for_status r); split; intros; discriminate.
Qed.

(** X12: the debug record of a result is written exactly when the call
    returns, and with the value it returns: [completion] records the prompt
    with the returned [content], [chat_completion] the returned value, and a
    call that raises records no result. *)
Theorem result_record_iff_returned {World : Type}
    (net_post : Request → World → post_outcome * World)
    (json_loads : bytes → option pyval) (cfg : ServerConfig) (prompt : string)
    (messages : list (gmap string string)) (temperature : spec_float)
    (max_tokens : Z) (kwargs : gmap string pyval) (w : World)
    (p : string) (v : pyval) :
  let completed := completion net_post json_loads cfg prompt temperature
                     max_tokens kwargs w in
  let chatted := chat_completion net_post json_loads cfg messages temperature
                   max_tokens kwargs w in
  (Log DEBUG (PromptResult p v) ∈ trace completed
   ↔ p = prompt ∧ outcome completed = Returns v)
  ∧ (Log DEBUG (ChatResult v) ∈ trace chatted
     ↔ outcome chatted = Returns v).
Proof.
  intros completed chatted. subst completed chatted.
  rewrite completion_run, chat_completion_run. cbv zeta.
  pose proof (send_request_no_result_record net_post json_loads cfg
    (completion_payload prompt temperature max_tokens kwargs)
    COMPLETION_ENDPOINT w) as Hrun_c.
  pose proof (send_request_no_result_record net_post json_loads cfg
    (chat_payload messages temperature max_tokens kwargs)
    CHAT_ENDPOINT w) as Hrun_k.
  split.
  - destruct (outcome (__send_request _ _ _ _ COMPLETION_ENDPOINT _))
      as [response|e].
    + destruct (subscript response "content") as [c|e];
        unfold trace at 1, outcome at 1; simpl.
      * rewrite elem_of_app, list_elem_of_singleton. split.
        -- intros [Hin|[= -> ->]]; [|done].
           by destruct (proj1 (Hrun_c _ Hin) p v).
        -- intros [-> [= ->]]. by right.
      * split; [|by intros [_ ?]].
        intros Hin. by destruct (proj1 (Hrun_c _ Hin) p v).
    + unfold trace at 1, outcome at 1; simpl. split; [|by intros [_ ?]].
      intros Hin. by destruct (proj1 (Hrun_c _ Hin) p v).
  - destruct (outcome (__send_request _ _ _ _ CHAT_ENDPOINT _))
      as [response|e]; unfold trace at 1, outcome at 1; simpl.
    + rewrite elem_of_cons, elem_of_app, list_elem_of_singleton. split.
      * intros [[=]|[Hin|[= ->]]]; [|done].
        by destruct (proj2 (Hrun_k _ Hin) v).
      * intros [= ->]. right. by right.
    + rewrite elem_of_cons. split; [|done].
      intros [[=]|Hin]. by destruct (proj2 (Hrun_k _ Hin) v).
Qed.
